(** * mlTrainer: the AI filter model trainer of KrakenBot

    A shallow embedding of [server/services/mlTrainer.py] and the
    verification of its specification.

    The script is a short-lived command line tool with two commands:
    [train <samples-file>] fits a random forest with walk-forward
    validation and writes a model artifact and a status file;
    [predict <feature-map>] loads the artifact and prints a score.

    Layout of the development:
    - [Py]: the Python values produced by [json.load] and the builtins the
      script applies to them ([dict.get], truthiness, [float], [int],
      iteration, slicing, [range]);
    - [World]: the collaborators whose behaviour the script does not
      decide (file contents, the JSON and number parsers, the classifier,
      pickle, the clock), taken as parameters;
    - [Sklearn]: the two pieces of scikit-learn whose behaviour the
      specification talks about, [TimeSeriesSplit] and the scores computed
      with [zero_division=0];
    - the script itself, in a state-and-exception monad over the file
      system and standard output;
    - the theorems. *)

From Stdlib Require Import ZArith SpecFloat DecimalString.
From stdpp Require Import gmap strings list fin_maps pretty.

#[local] Set Warnings "-register-all".
#[local] Open Scope Z_scope.

(** ** Python floats

    A Python [float] is an IEEE 754 binary64 number; [spec_float] with
    precision 53 and maximal exponent 1024 is its specification. *)

Abbreviation pyfloat := spec_float.

Definition prec : Z := 53.
Definition emax : Z := 1024.

(** The double nearest to the integer [z] (an infinity when [z] is out
    of range). *)
Definition float_of_Z (z : Z) : pyfloat := binary_normalize prec emax z 0 false.

(** The literal [0.5]. *)
Definition half : pyfloat := binary_normalize prec emax 1 (-1) false.

Definition fzero : pyfloat := S754_zero false.

Definition fdiv (x y : pyfloat) : pyfloat := SFdiv prec emax x y.
Definition fadd (x y : pyfloat) : pyfloat := SFadd prec emax x y.

(** ** Exceptions and results *)

Inductive exn_class :=
| AttributeError | TypeError | ValueError | OverflowError | KeyError
| IndexError | OSError | JSONDecodeError | ImportError | RuntimeError.

(** An instance of (a subclass of) [Exception]: its class and [str(e)]. *)
Record exn := Exn { exn_cls : exn_class; exn_str : string }.

Inductive result (A : Type) :=
| Ok (a : A)
| Err (e : exn).
Arguments Ok {A} a.
Arguments Err {A} e.

#[export] Instance result_ret : MRet result := λ A a, Ok a.
#[export] Instance result_bind : MBind result := λ A B f r,
  match r with Ok a => f a | Err e => Err e end.

Definition is_ok {A} (r : result A) : bool :=
  match r with Ok _ => true | Err _ => false end.

(** [[f(x) for x in l]] where [f] may raise: the first exception aborts. *)
Fixpoint traverse {A B} (f : A → result B) (l : list A) : result (list B) :=
  match l with
  | [] => Ok []
  | x :: l' => y ← f x; ys ← traverse f l'; Ok (y :: ys)
  end.

(** [[x for x in l if p(x)]] where [p] may raise. *)
Fixpoint filter_r {A} (p : A → result bool) (l : list A) : result (list A) :=
  match l with
  | [] => Ok []
  | x :: l' =>
      p x ≫= λ b : bool, ys ← filter_r p l'; Ok (if b then x :: ys else ys)
  end.

(** ** Python values and builtins *)

Module Py.

(** What [json.load] returns. *)
Inductive val :=
| None
| Bool (b : bool)
| Int (z : Z)
| Float (f : pyfloat)
| Str (s : string)
| List (l : list val)
| Dict (d : gmap string val).

(** The name Python prints for the type of a value. *)
Definition type_name (v : val) : string :=
  match v with
  | None => "NoneType"
  | Bool _ => "bool"
  | Int _ => "int"
  | Float _ => "float"
  | Str _ => "str"
  | List _ => "list"
  | Dict _ => "dict"
  end.

(** [v.get(key, dflt)]: only a dict has the method. *)
Definition get (v : val) (key : string) (dflt : val) : result val :=
  match v with
  | Dict d => Ok (default dflt (d !! key))
  | _ => Err (Exn AttributeError
                ("'" +:+ type_name v +:+ "' object has no attribute 'get'"))
  end.

(** [v[key]] for a string key. *)
Definition getitem (v : val) (key : string) : result val :=
  match v with
  | Dict d =>
      match d !! key with
      | Some x => Ok x
      | Datatypes.None => Err (Exn KeyError ("'" +:+ key +:+ "'"))
      end
  | Str _ => Err (Exn TypeError "string indices must be integers")
  | List _ => Err (Exn TypeError "list indices must be integers or slices, not str")
  | _ => Err (Exn TypeError
                ("'" +:+ type_name v +:+ "' object is not subscriptable"))
  end.

(** [v is not None]. *)
Definition is_not_None (v : val) : bool :=
  match v with None => false | _ => true end.

(** Truth value of [v] in a condition. *)
Definition truthy (v : val) : bool :=
  match v with
  | None => false
  | Bool b => b
  | Int z => negb (z =? 0)
  | Float (S754_zero _) => false
  | Float _ => true
  | Str s => negb (String.eqb s "")
  | List l => negb (bool_decide (length l = 0%nat))
  | Dict d => negb (bool_decide (size d = 0%nat))
  end.

(** [for x in v]: the elements of a list, the keys of a dict, the
    characters of a string. *)
Definition iter (v : val) : result (list val) :=
  match v with
  | List l => Ok l
  | Dict d => Ok (Str <$> (map_to_list d).*1)
  | Str s => Ok ((λ c, Str (String c EmptyString)) <$> String.list_ascii_of_string s)
  | _ => Err (Exn TypeError
                ("'" +:+ type_name v +:+ "' object is not iterable"))
  end.

(** [int(f)] for a float: truncation towards zero. *)
Definition trunc (f : pyfloat) : result Z :=
  match f with
  | S754_zero _ => Ok 0
  | S754_infinity _ => Err (Exn OverflowError "cannot convert float infinity to integer")
  | S754_nan => Err (Exn ValueError "cannot convert float NaN to integer")
  | S754_finite s m e =>
      let a := if 0 <=? e then Z.pos m * 2 ^ e else Z.pos m / 2 ^ (- e) in
      Ok (if s then - a else a)
  end.

(** [float(z)] for an int: the nearest double, or [OverflowError]. *)
Definition int_to_float (z : Z) : result pyfloat :=
  match float_of_Z z with
  | S754_infinity _ => Err (Exn OverflowError "int too large to convert to float")
  | f => Ok f
  end.

(** [range(start, stop, step)] for a positive step. *)
Definition range (start stop step : Z) : list Z :=
  (λ i, start + i * step) <$> seqZ 0 ((stop - start + step - 1) `div` step).

(** [l[a:b]] for a list (or a one-dimensional array): negative bounds
    count from the end, and bounds are clipped to the length. *)
Definition clip (len i : Z) : Z :=
  if i <? 0 then Z.max 0 (i + len) else Z.min i len.

Definition slice {A} (l : list A) (a b : Z) : list A :=
  let len := Z.of_nat (length l) in
  let a' := clip len a in
  let b' := clip len b in
  take (Z.to_nat (b' - a')) (drop (Z.to_nat a') l).

(** [a[idx]] for an array of indices [idx]: [IndexError] out of bounds
    (negative indices count from the end). *)
Definition take_rows {A} (a : list A) (idx : list Z) : result (list A) :=
  let len := Z.of_nat (length a) in
  traverse (λ i,
    if (i <? - len) || (len <=? i)
    then Err (Exn IndexError "index out of bounds")
    else match a !! Z.to_nat (if i <? 0 then i + len else i) with
         | Some x => Ok x
         | Datatypes.None => Err (Exn IndexError "index out of bounds")
         end) idx.

End Py.

(** ** The collaborators

    Everything the script calls and does not define: the interpreter's
    parsers, the files it reads, scikit-learn's random forest, pickle and
    the [date] command. A call that fails raises an error, that is an
    instance of [Exception]. The theorems hold in every such world; the
    concrete one of [Example] serves to run the script. *)

(** The arguments of [RandomForestClassifier(...)]. *)
Record RandomForestClassifier := {
  n_estimators : Z;
  max_depth : Z;
  min_samples_split : Z;
  min_samples_leaf : Z;
  random_state : Z;
  class_weight : string;
}.

Record World := {
  (** whether the [sklearn] and [numpy] imports succeed *)
  sklearn_installed : bool;
  (** [open(path, 'r')] followed by reading the whole file *)
  open_read : string → result string;
  (** [json.loads] *)
  json_loads : string → result Py.val;
  (** [float(s)] and [int(s)] for a string [s] *)
  str_to_float : string → result pyfloat;
  str_to_int : string → result Z;
  (** a fitted classifier, or whatever object [pickle.load] returns *)
  model : Type;
  (** [RandomForestClassifier(...).fit(X, y)] *)
  fit : RandomForestClassifier → list (list pyfloat) → list Z → result model;
  (** [model.predict(X)] *)
  predict_labels : model → list (list pyfloat) → result (list Z);
  (** [model.predict_proba(X)] *)
  predict_proba : model → list (list pyfloat) → result (list (list pyfloat));
  (** [pickle.dump] and [pickle.load] *)
  pickle_dumps : model → string;
  pickle_loads : string → result model;
  (** the output of [date -u +"%Y-%m-%dT%H:%M:%SZ"], stripped *)
  date_utc : string;
}.

(** [float(v)]. *)
Definition py_float (W : World) (v : Py.val) : result pyfloat :=
  match v with
  | Py.Bool b => Ok (float_of_Z (if b then 1 else 0))
  | Py.Int z => Py.int_to_float z
  | Py.Float f => Ok f
  | Py.Str s => str_to_float W s
  | _ => Err (Exn TypeError
                ("float() argument must be a string or a real number, not '"
                 +:+ Py.type_name v +:+ "'"))
  end.

(** [int(v)]. *)
Definition py_int (W : World) (v : Py.val) : result Z :=
  match v with
  | Py.Bool b => Ok (if b then 1 else 0)
  | Py.Int z => Ok z
  | Py.Float f => Py.trunc f
  | Py.Str s => str_to_int W s
  | _ => Err (Exn TypeError
                ("int() argument must be a string, a bytes-like object or a real number, not '"
                 +:+ Py.type_name v +:+ "'"))
  end.

(** ** scikit-learn

    [TimeSeriesSplit] with its default [gap=0], [test_size=None] and
    [max_train_size=None], and the scores of [sklearn.metrics] for binary
    targets with [pos_label=1] and [zero_division=0], as the library
    computes them. *)

Module Sklearn.

Record TimeSeriesSplit := { n_splits : Z }.

(** [TimeSeriesSplit(n_splits=k)]: the constructor refuses [k <= 1]. *)
Definition TimeSeriesSplit_init (k : Z) : result TimeSeriesSplit :=
  if k <=? 1
  then Err (Exn ValueError
              ("k-fold cross-validation requires at least one train/test split by setting n_splits=2 or more, got n_splits="
               +:+ pretty k +:+ "."))
  else Ok {| n_splits := k |}.

(** [list(tscv.split(X))] for [n_samples = len(X)]: the pairs
    [(train_idx, test_idx)]. *)
Definition split (tscv : TimeSeriesSplit) (n_samples : Z)
  : result (list (list Z * list Z)) :=
  let n_splits := n_splits tscv in
  let n_folds := n_splits + 1 in
  let test_size := n_samples `div` n_folds in
  if n_samples <? n_folds
  then Err (Exn ValueError
              ("Cannot have number of folds=" +:+ pretty n_folds
               +:+ " greater than the number of samples=" +:+ pretty n_samples +:+ "."))
  else if n_samples - test_size * n_splits <=? 0
  then Err (Exn ValueError
              ("Too many splits=" +:+ pretty n_splits
               +:+ " for number of samples=" +:+ pretty n_samples
               +:+ " with test_size=" +:+ pretty test_size +:+ " and gap=0."))
  else
    let indices := seqZ 0 n_samples in
    let test_starts := Py.range (n_samples - n_splits * test_size) n_samples test_size in
    Ok ((λ test_start,
          (Py.slice indices 0 test_start,
           Py.slice indices test_start (test_start + test_size)))
        <$> test_starts).

(** Number of positions where the pair (true label, predicted label)
    satisfies [p]. *)
Definition count (p : Z → Z → bool) (y_true y_pred : list Z) : Z :=
  Z.of_nat (length (List.filter (λ tp, p tp.1 tp.2) (zip y_true y_pred))).

Definition check_consistent_length (y_true y_pred : list Z) : result unit :=
  if bool_decide (length y_true = length y_pred) then Ok tt
  else Err (Exn ValueError
              ("Found input variables with inconsistent numbers of samples: ["
               +:+ pretty (length y_true) +:+ ", " +:+ pretty (length y_pred) +:+ "]")).

(** The checks of a score with [average='binary'] and [pos_label=1]:
    at most two labels occur, and label 1 is one of them unless fewer
    than two occur. *)
Definition check_binary (y_true y_pred : list Z) : result unit :=
  check_consistent_length y_true y_pred;;
  let present_labels := remove_dups (y_true ++ y_pred) in
  if (2 <? length present_labels)%nat
  then Err (Exn ValueError "Target is multiclass but average='binary'. Please choose another average setting, one of [None, 'micro', 'macro', 'weighted'].")
  else if negb (bool_decide (1 ∈ present_labels)) && (2 <=? length present_labels)%nat
  then Err (Exn ValueError "pos_label=1 is not a valid label.")
  else Ok tt.

(** [numerator / denominator], and [zero_division] (here 0) where the
    denominator is 0. *)
Definition prf_divide (numerator denominator : Z) : pyfloat :=
  if denominator =? 0 then fzero
  else fdiv (float_of_Z numerator) (float_of_Z denominator).

Definition is_pos (l : Z) : bool := l =? 1.

Definition tp_sum := count (λ t p, is_pos t && is_pos p).
Definition pred_sum := count (λ t p, is_pos p).
Definition true_sum := count (λ t p, is_pos t).

(** [accuracy_score(y_true, y_pred)]. *)
Definition accuracy_score (y_true y_pred : list Z) : result pyfloat :=
  check_consistent_length y_true y_pred;;
  Ok (fdiv (float_of_Z (count Z.eqb y_true y_pred))
           (float_of_Z (Z.of_nat (length y_true)))).

(** [precision_score(y_true, y_pred, zero_division=0)]. *)
Definition precision_score (y_true y_pred : list Z) : result pyfloat :=
  check_binary y_true y_pred;;
  Ok (prf_divide (tp_sum y_true y_pred) (pred_sum y_true y_pred)).

(** [recall_score(y_true, y_pred, zero_division=0)]. *)
Definition recall_score (y_true y_pred : list Z) : result pyfloat :=
  check_binary y_true y_pred;;
  Ok (prf_divide (tp_sum y_true y_pred) (true_sum y_true y_pred)).

(** [f1_score(y_true, y_pred, zero_division=0)]. *)
Definition f1_score (y_true y_pred : list Z) : result pyfloat :=
  check_binary y_true y_pred;;
  Ok (prf_divide (2 * tp_sum y_true y_pred)
                 (true_sum y_true y_pred + pred_sum y_true y_pred)).

(** [float(np.mean(l))] for a list of floats. *)
Definition mean (l : list pyfloat) : pyfloat :=
  fdiv (foldl fadd fzero l) (float_of_Z (Z.of_nat (length l))).

End Sklearn.

(** ** The process state and its monad

    What an invocation can observe and change: the model directory, the
    model artifact, the status file, and what was printed. The status
    file and the printed lines are JSON documents, kept as the values
    they encode. Creating the directory and writing the two files
    succeed; reading may fail. *)

Inductive file :=
| Readable (content : string)
| Unreadable.

Record state := State {
  model_dir : bool;
  model_file : option file;
  status_file : option Py.val;
  stdout : list Py.val;
}.

(** How a computation ends: normally, by [sys.exit(code)], or by an
    exception. *)
Inductive ctl (A : Type) :=
| Normal (a : A)
| SysExit (code : Z)
| Raised (e : exn).
Arguments Normal {A} a.
Arguments SysExit {A} code.
Arguments Raised {A} e.

Definition M (A : Type) : Type := state → ctl A * state.

#[export] Instance M_ret : MRet M := λ A a s, (Normal a, s).
#[export] Instance M_bind : MBind M := λ A B f m s,
  match m s with
  | (Normal a, s') => f a s'
  | (SysExit c, s') => (SysExit c, s')
  | (Raised e, s') => (Raised e, s')
  end.

(** A pure step that may raise. *)
Definition lift {A} (r : result A) : M A := λ s,
  (match r with Ok a => Normal a | Err e => Raised e end, s).

(** [sys.exit(code)]. *)
Definition sys_exit {A} (code : Z) : M A := λ s, (SysExit code, s).

(** [print(json.dumps(v))]. *)
Definition print (v : Py.val) : M unit := λ s,
  (Normal tt,
   State (model_dir s) (model_file s) (status_file s) (stdout s ++ [v])).

(** [try: body except Exception as e: handler(e)]. [SystemExit] is not an
    [Exception] and passes through. *)
Definition try_except {A} (body : M A) (handler : exn → M A) : M A := λ s,
  match body s with
  | (Raised e, s') => handler e s'
  | r => r
  end.

(** The exit status of the process. *)
Definition exit_code {A} (c : ctl A) : Z :=
  match c with
  | Normal _ => 0
  | SysExit code => code
  | Raised _ => 1
  end.

(** ** The script *)

Definition MODEL_DIR : string := "/tmp/models".
Definition MODEL_PATH : string := MODEL_DIR +:+ "/ai_filter.joblib".
Definition STATUS_PATH : string := MODEL_DIR +:+ "/ai_status.json".

(** [os.path.exists(MODEL_DIR)] and [os.makedirs(MODEL_DIR, exist_ok=True)]. *)
Definition ensure_model_dir : M unit := λ s,
  if negb (model_dir s)
  then (Normal tt, State true (model_file s) (status_file s) (stdout s))
  else (Normal tt, s).

(** [os.path.exists(MODEL_PATH)]. *)
Definition model_path_exists : M bool := λ s,
  (Normal (bool_decide (is_Some (model_file s))), s).

(** [open(MODEL_PATH, 'rb')] and reading it. *)
Definition read_model_file : M string := λ s,
  match model_file s with
  | Some (Readable content) => (Normal content, s)
  | Some Unreadable =>
      (Raised (Exn OSError ("[Errno 13] Permission denied: '" +:+ MODEL_PATH +:+ "'")), s)
  | None =>
      (Raised (Exn OSError ("[Errno 2] No such file or directory: '" +:+ MODEL_PATH +:+ "'")), s)
  end.

(** [with open(MODEL_PATH, 'wb') as f: pickle.dump(model, f)]. *)
Definition write_model_file (content : string) : M unit := λ s,
  (Normal tt, State (model_dir s) (Some (Readable content)) (status_file s) (stdout s)).

(** [with open(STATUS_PATH, 'w') as f: json.dump(metrics, f, indent=2)]. *)
Definition write_status_file (metrics : Py.val) : M unit := λ s,
  (Normal tt, State (model_dir s) (model_file s) (Some metrics) (stdout s)).

Section Script.

Context (W : World).

(** [float(features.get(key, dflt))]. *)
Definition get_float (features : Py.val) (key : string) (dflt : Z)
  : result pyfloat :=
  v ← Py.get features key (Py.Int dflt); py_float W v.

(** Lines 20-43. *)
Definition extract_features_from_sample (sample : Py.val)
  : result (list pyfloat) :=
  features ← Py.get sample "featuresJson" (Py.Dict ∅);
  features ← match features with
             | Py.Str s => json_loads W s
             | _ => Ok features
             end;
  f0 ← get_float features "rsi14" 50;
  f1 ← get_float features "macdLine" 0;
  f2 ← get_float features "macdSignal" 0;
  f3 ← get_float features "macdHist" 0;
  f4 ← get_float features "bbUpper" 0;
  f5 ← get_float features "bbMiddle" 0;
  f6 ← get_float features "bbLower" 0;
  f7 ← get_float features "atr14" 0;
  f8 ← get_float features "ema12" 0;
  f9 ← get_float features "ema26" 0;
  f10 ← get_float features "volume24hChange" 0;
  f11 ← get_float features "priceChange1h" 0;
  f12 ← get_float features "priceChange4h" 0;
  f13 ← get_float features "priceChange24h" 0;
  f14 ← get_float features "spreadPct" 0;
  f15 ← get_float features "confidence" 50;
  Ok [f0; f1; f2; f3; f4; f5; f6; f7; f8; f9; f10; f11; f12; f13; f14; f15].

(** The hyperparameters of lines 93-100 and 110-117. *)
Definition forest : RandomForestClassifier := {|
  n_estimators := 100;
  max_depth := 10;
  min_samples_split := 5;
  min_samples_leaf := 2;
  random_state := 42;
  class_weight := "balanced";
|}.

(** The condition of line 61:
    [s.get("isComplete") and s.get("labelWin") is not None]. *)
Definition is_complete_and_labelled (s : Py.val) : result bool :=
  Py.get s "isComplete" Py.None ≫= λ c : Py.val,
  if Py.truthy c
  then l ← Py.get s "labelWin" Py.None; Ok (Py.is_not_None l)
  else Ok false.

(** The body of the [try] of lines 72-75, without the appends. *)
Definition vectorize (sample : Py.val) : result (list pyfloat * Z) :=
  features ← extract_features_from_sample sample;
  label ← (v ← Py.getitem sample "labelWin"; py_int W v);
  Ok (features, label).

(** Lines 67-77: the loop that fills [X] and [y], skipping the samples
    whose vectorization raises. *)
Definition build_dataset (complete_samples : list Py.val)
  : list (list pyfloat) * list Z :=
  foldl (λ Xy sample,
           match vectorize sample with
           | Ok (features, label) => (Xy.1 ++ [features], Xy.2 ++ [label])
           | Err _ => Xy
           end)
        ([], []) complete_samples.

(** The scores of one fold, lines 90-108. *)
Definition evaluate_fold (X : list (list pyfloat)) (y : list Z)
    (fold : list Z * list Z)
  : result (pyfloat * pyfloat * pyfloat * pyfloat) :=
  let '(train_idx, test_idx) := fold in
  X_train ← Py.take_rows X train_idx;
  X_test ← Py.take_rows X test_idx;
  y_train ← Py.take_rows y train_idx;
  y_test ← Py.take_rows y test_idx;
  model ← fit W forest X_train y_train;
  y_pred ← predict_labels W model X_test;
  accuracy ← Sklearn.accuracy_score y_test y_pred;
  precision ← Sklearn.precision_score y_test y_pred;
  recall ← Sklearn.recall_score y_test y_pred;
  f1 ← Sklearn.f1_score y_test y_pred;
  Ok (accuracy, precision, recall, f1).

(** The value of [n_splits] at line 82. *)
Definition fold_count (n : Z) : Z := Z.min 5 (n `div` 20).

(** Lines 123-130. *)
Definition metrics_record (scores : list (pyfloat * pyfloat * pyfloat * pyfloat))
    (complete_samples : list Py.val) : Py.val :=
  Py.Dict (list_to_map [
    ("accuracy", Py.Float (Sklearn.mean (scores.*1.*1.*1)));
    ("precision", Py.Float (Sklearn.mean (scores.*1.*1.*2)));
    ("recall", Py.Float (Sklearn.mean (scores.*1.*2)));
    ("f1", Py.Float (Sklearn.mean (scores.*2)));
    ("nSamples", Py.Int (Z.of_nat (length complete_samples)));
    ("trainedAt", Py.Str (date_utc W))
  ]).

Definition failure_record (error : string) : Py.val :=
  Py.Dict (list_to_map [("success", Py.Bool false); ("error", Py.Str error)]).

Definition success_record (metrics : Py.val) : Py.val :=
  Py.Dict (list_to_map [("success", Py.Bool true); ("metrics", metrics)]).

(** Lines 45-135. *)
Definition train (samples_path : string) : M unit :=
  (if sklearn_installed W then mret tt
   else print (failure_record "sklearn not installed");; sys_exit 1);;
  ensure_model_dir;;
  text ← lift (open_read W samples_path);
  samples ← lift (json_loads W text);
  complete_samples ← lift (items ← Py.iter samples;
                           filter_r is_complete_and_labelled items);
  (if (length complete_samples <? 50)%nat
   then print (failure_record
                 ("Not enough samples: " +:+ pretty (length complete_samples)));;
        sys_exit 1
   else mret tt);;
  let X := (build_dataset complete_samples).1 in
  let y := (build_dataset complete_samples).2 in
  tscv ← lift (Sklearn.TimeSeriesSplit_init (fold_count (Z.of_nat (length X))));
  folds ← lift (Sklearn.split tscv (Z.of_nat (length X)));
  scores ← lift (traverse (evaluate_fold X y) folds);
  final_model ← lift (fit W forest X y);
  write_model_file (pickle_dumps W final_model);;
  let metrics := metrics_record scores complete_samples in
  write_status_file metrics;;
  print (success_record metrics).

Definition fallback_record (error : string) : Py.val :=
  Py.Dict (list_to_map [("score", Py.Float half); ("error", Py.Str error)]).

Definition score_record (score : pyfloat) : Py.val :=
  Py.Dict (list_to_map [("score", Py.Float score)]).

(** The feature row built at lines 149-168. *)
Definition predict_row (features_json : string) : result (list pyfloat) :=
  features ← json_loads W features_json;
  f0 ← get_float features "rsi14" 50;
  f1 ← get_float features "macdLine" 0;
  f2 ← get_float features "macdSignal" 0;
  f3 ← get_float features "macdHist" 0;
  f4 ← get_float features "bbUpper" 0;
  f5 ← get_float features "bbMiddle" 0;
  f6 ← get_float features "bbLower" 0;
  f7 ← get_float features "atr14" 0;
  f8 ← get_float features "ema12" 0;
  f9 ← get_float features "ema26" 0;
  f10 ← get_float features "volume24hChange" 0;
  f11 ← get_float features "priceChange1h" 0;
  f12 ← get_float features "priceChange4h" 0;
  f13 ← get_float features "priceChange24h" 0;
  f14 ← get_float features "spreadPct" 0;
  f15 ← get_float features "confidence" 50;
  Ok [f0; f1; f2; f3; f4; f5; f6; f7; f8; f9; f10; f11; f12; f13; f14; f15].

(** [l[i]] for a list or array and a non-negative index. *)
Definition item {A} (l : list A) (i : nat) : result A :=
  match l !! i with
  | Some x => Ok x
  | None => Err (Exn IndexError "index out of range")
  end.

(** The body of the [try] of lines 146-173. *)
Definition predict_try (features_json : string) : M unit :=
  content ← read_model_file;
  model ← lift (pickle_loads W content);
  row ← lift (predict_row features_json);
  proba ← lift (all ← predict_proba W model [row]; item all 0);
  score ← lift (if (1 <? length proba)%nat
                then item proba 1 else Ok half);
  print (score_record score).

(** Lines 137-176. *)
Definition predict (features_json : string) : M unit :=
  ensure_model_dir;;
  model_path_exists ≫= λ found : bool,
  if negb found
  then print (fallback_record "Model not found")
  else try_except (predict_try features_json)
                  (λ e, print (fallback_record (exn_str e))).

Definition usage_record (error : string) : Py.val :=
  Py.Dict (list_to_map [("error", Py.Str error)]).

(** Lines 178-191; [argv] is [sys.argv]. *)
Definition main (argv : list string) : M unit :=
  if (length argv <? 2)%nat
  then print (usage_record "Usage: mlTrainer.py <train|predict> <arg>");;
       sys_exit 1
  else
    let command := default "" (argv !! 1%nat) in
    if String.eqb command "train" && (3 <=? length argv)%nat
    then train (default "" (argv !! 2%nat))
    else if String.eqb command "predict" && (3 <=? length argv)%nat
    then predict (default "" (argv !! 2%nat))
    else print (usage_record ("Unknown command: " +:+ command));;
         sys_exit 1.

End Script.

(** ** A concrete world

    Used to run the script on concrete inputs. Its JSON parser knows the
    documents it is given, its classifier remembers on how many rows it
    was fitted and predicts class 1 for every row with probabilities
    (0.5, 0.5), and an artifact is the decimal number of those rows. *)

Module Example.

Definition fit_rows (_ : RandomForestClassifier) (X : list (list pyfloat)) (y : list Z)
  : result nat :=
  if bool_decide (length X = 0%nat)
  then Err (Exn ValueError "Found array with 0 sample(s) while a minimum of 1 is required.")
  else Ok (length X).

Definition read_rows (content : string) : result nat :=
  match DecimalString.NilEmpty.uint_of_string content with
  | Some u => Ok (Nat.of_uint u)
  | None => Err (Exn RuntimeError "invalid load key")
  end.

Definition lookup_or_raise {A} (table : list (string * A)) (e : exn) (key : string)
  : result A :=
  match (list_to_map table : gmap string A) !! key with
  | Some v => Ok v
  | None => Err e
  end.

(** The world where [files] are the readable text files and [documents]
    the texts that are valid JSON, with the values they encode. *)
Definition world (files : list (string * string))
    (documents : list (string * Py.val)) : World := {|
  sklearn_installed := true;
  open_read := lookup_or_raise files (Exn OSError "[Errno 2] No such file or directory");
  json_loads := lookup_or_raise documents (Exn JSONDecodeError "Expecting value: line 1 column 1 (char 0)");
  str_to_float := λ s, Err (Exn ValueError ("could not convert string to float: '" +:+ s +:+ "'"));
  str_to_int := λ s, Err (Exn ValueError ("invalid literal for int() with base 10: '" +:+ s +:+ "'"));
  model := nat;
  fit := fit_rows;
  predict_labels := λ m X, Ok ((λ _, 1) <$> X);
  predict_proba := λ m X, Ok ((λ _, [half; half]) <$> X);
  pickle_dumps := λ m, pretty m;
  pickle_loads := read_rows;
  date_utc := "2024-01-01T00:00:00Z";
|}.

(** A complete, labelled sample whose feature map has one field. *)
Definition good_sample : gmap string Py.val :=
  list_to_map [
    ("isComplete", Py.Bool true);
    ("labelWin", Py.Int 1);
    ("featuresJson", Py.Dict (list_to_map [("rsi14", Py.Int 60)]))
  ].

(** A complete, labelled sample whose [rsi14] is [null]. *)
Definition bad_sample : gmap string Py.val :=
  list_to_map [
    ("isComplete", Py.Bool true);
    ("labelWin", Py.Int 1);
    ("featuresJson", Py.Dict (list_to_map [("rsi14", Py.None)]))
  ].

(** [good] good samples followed by [bad] bad ones. *)
Definition records (good bad : nat) : list (gmap string Py.val) :=
  replicate good good_sample ++ replicate bad bad_sample.

(** The samples file. *)
Definition samples (good bad : nat) : Py.val :=
  Py.List (Py.Dict <$> records good bad).

(** The world whose file [samples.json] holds [samples good bad]. *)
Definition samples_world (good bad : nat) : World :=
  world [("samples.json", "<samples>")] [("<samples>", samples good bad)].

(** A fresh machine: no model directory, no files, nothing printed. *)
Definition fresh : state := State false None None [].

(** A machine with a model artifact. *)
Definition with_artifact (f : file) : state := State true (Some f) None [].

End Example.

(** ** Vocabulary of the specification *)

(** The field table of the specification (section 4.1): the sixteen
    fields in order, each with its default. Written from the table, to be
    compared with what the two vectorizers of the script compute. *)
Definition FIELDS : list (string * Z) := [
  ("rsi14", 50); ("macdLine", 0); ("macdSignal", 0); ("macdHist", 0);
  ("bbUpper", 0); ("bbMiddle", 0); ("bbLower", 0); ("atr14", 0);
  ("ema12", 0); ("ema26", 0); ("volume24hChange", 0); ("priceChange1h", 0);
  ("priceChange4h", 0); ("priceChange24h", 0); ("spreadPct", 0);
  ("confidence", 50)
].

(** A sample record is trainable when it is complete and labelled. The
    script tests [isComplete] for truth, which for a boolean flag means
    that it is [true]. *)
Definition trainable (sample : gmap string Py.val) : bool :=
  Py.truthy (default Py.None (sample !! "isComplete"))
  && Py.is_not_None (default Py.None (sample !! "labelWin")).

(** The field [key] of a JSON document that is an object. *)
Definition field (key : string) (document : Py.val) : option Py.val :=
  match document with
  | Py.Dict d => d !! key
  | _ => None
  end.

(** The [nSamples] entry of the status file. *)
Definition status_nSamples (s : state) : option Py.val :=
  status_file s ≫= field "nSamples".

(** The pure part of lines 82-118 of [train]: the walk-forward scores and
    the final model for the samples that passed the filter. *)
Definition fit_and_score (W : World) (complete_samples : list Py.val)
  : result (list (pyfloat * pyfloat * pyfloat * pyfloat) * model W) :=
  let X := (build_dataset W complete_samples).1 in
  let y := (build_dataset W complete_samples).2 in
  tscv ← Sklearn.TimeSeriesSplit_init (fold_count (Z.of_nat (length X)));
  folds ← Sklearn.split tscv (Z.of_nat (length X));
  scores ← traverse (evaluate_fold W X y) folds;
  final_model ← fit W forest X y;
  Ok (scores, final_model).

(** The ways in which scoring can fail once the artifact exists, each with
    the exception it raises: the artifact cannot be read or unpickled, the
    feature map cannot be parsed or vectorized, or inference fails. *)
Inductive scoring_failure (W : World) (artifact : option file)
    (features_json : string) : exn → Prop :=
| unreadable_artifact :
    artifact = Some Unreadable →
    scoring_failure W artifact features_json
      (Exn OSError ("[Errno 13] Permission denied: '" +:+ MODEL_PATH +:+ "'"))
| corrupt_artifact content e :
    artifact = Some (Readable content) →
    pickle_loads W content = Err e →
    scoring_failure W artifact features_json e
| malformed_feature_map content m e :
    artifact = Some (Readable content) →
    pickle_loads W content = Ok m →
    predict_row W features_json = Err e →
    scoring_failure W artifact features_json e
| inference_error content m row e :
    artifact = Some (Readable content) →
    pickle_loads W content = Ok m →
    predict_row W features_json = Ok row →
    predict_proba W m [row] = Err e →
    scoring_failure W artifact features_json e
| inference_empty content m row :
    artifact = Some (Readable content) →
    pickle_loads W content = Ok m →
    predict_row W features_json = Ok row →
    predict_proba W m [row] = Ok [] →
    scoring_failure W artifact features_json (Exn IndexError "index out of range").

(** The value of one field of the table in the feature map [features]:
    [float] of the entry, or of the default when the entry is absent. *)
Definition field_value (W : World) (features : gmap string Py.val)
    (field : string * Z) : result pyfloat :=
  py_float W (default (Py.Int field.2) (features !! field.1)).

(** The folds of the walk-forward evaluation of [n] vectorized samples
    (lines 82 and 89 of [train]). *)
Definition walk_forward_folds (n : Z) : result (list (list Z * list Z)) :=
  tscv ← Sklearn.TimeSeriesSplit_init (fold_count n); Sklearn.split tscv n.

(** The number of sample records that the loop of lines 70-77 drops. *)
Definition dropped (W : World) (complete_samples : list (gmap string Py.val)) : nat :=
  length (List.filter (λ d, negb (is_ok (vectorize W (Py.Dict d)))) complete_samples).

(** Lines 58-61 of [train]: the complete and labelled samples of the file. *)
Definition load_complete (W : World) (samples_path : string) : result (list Py.val) :=
  text ← open_read W samples_path;
  samples ← json_loads W text;
  items ← Py.iter samples;
  filter_r is_complete_and_labelled items.

(** The vector of the defaults of the table. *)
Definition default_vector : list pyfloat :=
  (λ f : string * Z, float_of_Z f.2) <$> FIELDS.

(** What the loop of lines 70-77 appends for a sample, if anything. *)
Definition vectorized (W : World) (sample : Py.val) : option (list pyfloat * Z) :=
  match vectorize W sample with Ok row => Some row | Err _ => None end.

(** A label as the data model has it: a boolean, or the integer 0 or 1. *)
Definition binary_label (v : Py.val) : bool :=
  match v with
  | Py.Bool _ => true
  | Py.Int z => (z =? 0) || (z =? 1)
  | _ => false
  end.

(** A world to train and then score in: 50 good samples, and the empty
    feature map. *)
Definition round_trip_world : World :=
  Example.world [("samples.json", "<samples>")]
    [("<samples>", Example.samples 50 0); ("{}", Py.Dict ∅)].

(** ** Running the monad *)

Lemma ensure_model_dir_run s :
  ensure_model_dir s
  = (Normal tt, State true (model_file s) (status_file s) (stdout s)).
Proof. unfold ensure_model_dir. by destruct s as [[] ? ? ?]. Qed.

Lemma bind_run {A B} (m : M A) (f : A → M B) s :
  (m ≫= f) s
  = match m s with
    | (Normal a, s') => f a s'
    | (SysExit c, s') => (SysExit c, s')
    | (Raised e, s') => (Raised e, s')
    end.
Proof. reflexivity. Qed.

Lemma lift_run {A} (r : result A) s :
  lift r s = (match r with Ok a => Normal a | Err e => Raised e end, s).
Proof. reflexivity. Qed.

Lemma print_run v s :
  print v s
  = (Normal tt, State (model_dir s) (model_file s) (status_file s) (stdout s ++ [v])).
Proof. reflexivity. Qed.

(** One step of symbolic execution. *)
Ltac run :=
  repeat (rewrite ?bind_run, ?ensure_model_dir_run, ?lift_run, ?print_run; simpl).


Lemma traverse_Forall2 {A B} (f : A → result B) l ys :
  traverse f l = Ok ys → Forall2 (λ x y, f x = Ok y) l ys.
Proof.
  revert ys. induction l as [|x l IH]; intros ys; simpl.
  - intros [= <-]. constructor.
  - destruct (f x) as [y|] eqn:Hy; simpl; [|done].
    destruct (traverse f l) as [ys'|]; simpl; [|done].
    intros [= <-]. constructor; auto.
Qed.

Lemma traverse_total {A B} (f : A → result B) l :
  Forall (λ x, is_ok (f x) = true) l → ∃ ys, traverse f l = Ok ys.
Proof.
  induction 1 as [|x l Hx _ [ys IH]]; simpl; [by eauto|].
  destruct (f x) as [y|]; [|done]. rewrite IH. simpl. eauto.
Qed.

(** ** The dataset builder *)

Lemma filter_trainable ds :
  filter_r is_complete_and_labelled (Py.Dict <$> ds)
  = Ok (Py.Dict <$> List.filter trainable ds).
Proof.
  induction ds as [|d ds IH]; [done|].
  rewrite fmap_cons. cbn [filter_r List.filter]. rewrite IH.
  assert (is_complete_and_labelled (Py.Dict d) = Ok (trainable d)) as ->.
  { unfold trainable, is_complete_and_labelled. cbn [Py.get mbind result_bind].
    by destruct (Py.truthy _). }
  cbn. by destruct (trainable d).
Qed.

(** For a boolean flag, the truth test of the filter is "is [true]". *)
Lemma trainable_boolean d b :
  d !! "isComplete" = Some (Py.Bool b) →
  trainable d = b && Py.is_not_None (default Py.None (d !! "labelWin")).
Proof. intros H. unfold trainable. by rewrite H. Qed.

(** The rows of [X] are the samples that vectorize, in their order: the
    loop neither adds nor reorders. *)
Lemma build_dataset_rows W complete :
  length (build_dataset W complete).1
  = length (List.filter (λ v, is_ok (vectorize W v)) complete).
Proof.
  unfold build_dataset.
  enough (∀ acc : list (list pyfloat) * list Z,
    length (foldl (λ Xy sample,
                     match vectorize W sample with
                     | Ok (features, label) => (Xy.1 ++ [features], Xy.2 ++ [label])
                     | Err _ => Xy
                     end) acc complete).1
    = (length acc.1 + length (List.filter (λ v, is_ok (vectorize W v)) complete))%nat)
    as Hgen by apply (Hgen ([], [])).
  induction complete as [|sample complete IH]; intros acc; simpl; [lia|].
  rewrite IH. destruct (vectorize W sample) as [[features label]|e]; simpl.
  - rewrite length_app. simpl. lia.
  - lia.
Qed.

Lemma build_dataset_le W complete :
  (length (build_dataset W complete).1 ≤ length complete)%nat.
Proof. rewrite build_dataset_rows. apply List.filter_length_le. Qed.

(** The records of the concrete world are all complete and labelled. *)
Lemma filter_replicate {A} (f : A → bool) (x : A) n :
  f x = true → List.filter f (replicate n x) = replicate n x.
Proof. intros Hx. induction n as [|n IH]; simpl; [done|]. by rewrite Hx, IH. Qed.

Lemma records_trainable good bad :
  List.filter trainable (Example.records good bad) = Example.records good bad.
Proof.
  unfold Example.records. rewrite List.filter_app.
  by rewrite !filter_replicate by reflexivity.
Qed.

Lemma records_complete good bad :
  (items ← Py.iter (Example.samples good bad);
   filter_r is_complete_and_labelled items)
  = Ok (Py.Dict <$> Example.records good bad).
Proof.
  unfold Example.samples. cbn [Py.iter mbind result_bind].
  by rewrite filter_trainable, records_trainable.
Qed.

(** ** What [train] does

    Once the imports, the file and the filter have succeeded, the outcome
    is decided by the count of trainable samples and then by
    [fit_and_score] alone. *)

Lemma train_run W path s text samples complete :
  sklearn_installed W = true →
  open_read W path = Ok text →
  json_loads W text = Ok samples →
  (items ← Py.iter samples; filter_r is_complete_and_labelled items) = Ok complete →
  train W path s =
    if (length complete <? 50)%nat
    then (SysExit 1,
          State true (model_file s) (status_file s)
            (stdout s ++ [failure_record
                            ("Not enough samples: " +:+ pretty (length complete))]))
    else match fit_and_score W complete with
         | Ok (scores, final_model) =>
             let metrics := metrics_record W scores complete in
             (Normal tt,
              State true (Some (Readable (pickle_dumps W final_model)))
                (Some metrics) (stdout s ++ [success_record metrics]))
         | Err e => (Raised e, State true (model_file s) (status_file s) (stdout s))
         end.
Proof.
  intros Hsk Hopen Hjson Hfilter. unfold train, fit_and_score.
  rewrite Hsk. run. rewrite Hopen. run. rewrite Hjson. run. rewrite Hfilter. run.
  destruct (length complete <? 50)%nat; run; [done|].
  destruct (Sklearn.TimeSeriesSplit_init _) as [tscv|e]; run; [|done].
  destruct (Sklearn.split _ _) as [folds|e]; run; [|done].
  destruct (traverse _ _) as [scores|e]; run; [|done].
  destruct (fit _ _ _ _) as [final_model|e]; run; done.
Qed.

(** The folds that [fit_and_score] evaluates are [walk_forward_folds] of
    the number of rows of [X]. *)
Lemma fit_and_score_folds W complete :
  fit_and_score W complete
  = (let X := (build_dataset W complete).1 in
     let y := (build_dataset W complete).2 in
     folds ← walk_forward_folds (Z.of_nat (length X));
     scores ← traverse (evaluate_fold W X y) folds;
     final_model ← fit W forest X y;
     Ok (scores, final_model)).
Proof.
  unfold fit_and_score, walk_forward_folds. cbn zeta.
  by destruct (Sklearn.TimeSeriesSplit_init _).
Qed.

Lemma train_without_sklearn W path s :
  sklearn_installed W = false →
  train W path s
  = (SysExit 1,
     State (model_dir s) (model_file s) (status_file s)
       (stdout s ++ [failure_record "sklearn not installed"])).
Proof. intros Hsk. unfold train. rewrite Hsk. by run. Qed.

Lemma metrics_nSamples W scores complete :
  field "nSamples" (metrics_record W scores complete)
  = Some (Py.Int (Z.of_nat (length complete))).
Proof.
  unfold metrics_record.
  generalize (Sklearn.mean (scores.*1.*1.*1)) (Sklearn.mean (scores.*1.*1.*2))
    (Sklearn.mean (scores.*1.*2)) (Sklearn.mean (scores.*2))
    (Z.of_nat (length complete)) (date_utc W).
  intros. reflexivity.
Qed.

(** ** What [predict] does *)

Lemma predict_try_run W fj s :
  predict_try W fj s
  = match model_file s with
    | Some (Readable content) =>
        match pickle_loads W content with
        | Ok m =>
            match predict_row W fj with
            | Ok row =>
                match predict_proba W m [row] with
                | Ok (proba :: _) =>
                    let score := match proba with _ :: p :: _ => p | _ => half end in
                    (Normal tt,
                     State (model_dir s) (model_file s) (status_file s)
                       (stdout s ++ [score_record score]))
                | Ok [] => (Raised (Exn IndexError "index out of range"), s)
                | Err e => (Raised e, s)
                end
            | Err e => (Raised e, s)
            end
        | Err e => (Raised e, s)
        end
    | Some Unreadable =>
        (Raised (Exn OSError ("[Errno 13] Permission denied: '" +:+ MODEL_PATH +:+ "'")), s)
    | None =>
        (Raised (Exn OSError ("[Errno 2] No such file or directory: '" +:+ MODEL_PATH +:+ "'")), s)
    end.
Proof.
  unfold predict_try, read_model_file. rewrite bind_run.
  destruct s as [dir [[content|]|] st out]; cbn [model_file]; [|done..].
  run. destruct (pickle_loads W content) as [m|e]; run; [|done].
  destruct (predict_row W fj) as [row|e]; run; [|done].
  destruct (predict_proba W m [row]) as [[|proba rest]|e]; run; [done| |done].
  by destruct proba as [|p0 [|p1 proba]]; run.
Qed.

Lemma predict_run W fj s :
  predict W fj s
  = if bool_decide (is_Some (model_file s))
    then match predict_try W fj (State true (model_file s) (status_file s) (stdout s)) with
         | (Raised e, s') => print (fallback_record (exn_str e)) s'
         | r => r
         end
    else (Normal tt,
          State true (model_file s) (status_file s)
            (stdout s ++ [fallback_record "Model not found"])).
Proof.
  unfold predict. run. unfold try_except.
  by destruct (bool_decide _).
Qed.

Lemma predict_failure W fj s e :
  scoring_failure W (model_file s) fj e →
  predict W fj s
  = (Normal tt,
     State true (model_file s) (status_file s)
       (stdout s ++ [fallback_record (exn_str e)])).
Proof.
  intros Hfail. rewrite predict_run, predict_try_run. simpl.
  destruct Hfail as [->| ? ? -> -> | ? ? ? -> -> -> | ? ? ? ? -> -> -> -> | ? ? ? -> -> -> ->];
    by rewrite bool_decide_true by eauto.
Qed.

Lemma predict_total W fj s :
  is_Some (model_file s) →
  ∃ record,
    predict W fj s
    = (Normal tt, State true (model_file s) (status_file s) (stdout s ++ [record]))
    ∧ ((∃ score, record = score_record score)
       ∨ (∃ error, record = fallback_record error)).
Proof.
  intros Hsome. rewrite predict_run, predict_try_run, bool_decide_true by done.
  simpl. destruct (model_file s) as [[content|]|]; [| |by destruct Hsome].
  - destruct (pickle_loads W content) as [m|e]; [|by eauto].
    destruct (predict_row W fj) as [row|e]; [|by eauto].
    destruct (predict_proba W m [row]) as [[|proba rest]|e]; by eauto.
  - by eauto.
Qed.

(** ** The two vectorizers

    Both the vectorizer of [train] and the row built by [predict] read the
    fields of [FIELDS], in that order, with those defaults. *)

Ltac fields W :=
  unfold get_float, field_value, FIELDS;
  cbn [traverse Py.get mbind result_bind fst snd];
  repeat (match goal with
          | |- context [py_float W ?v] =>
              destruct (py_float W v); cbn [mbind result_bind]; [|reflexivity]
          end);
  reflexivity.

Lemma predict_row_fields W s d :
  json_loads W s = Ok (Py.Dict d) →
  predict_row W s = traverse (field_value W d) FIELDS.
Proof. intros H. unfold predict_row. rewrite H. fields W. Qed.

Lemma extract_features_native W smp d :
  smp !! "featuresJson" = Some (Py.Dict d) →
  extract_features_from_sample W (Py.Dict smp) = traverse (field_value W d) FIELDS.
Proof.
  intros H. unfold extract_features_from_sample. cbn [Py.get]. rewrite H.
  cbn [from_option id mbind result_bind]. fields W.
Qed.

Lemma extract_features_text W smp s d :
  smp !! "featuresJson" = Some (Py.Str s) →
  json_loads W s = Ok (Py.Dict d) →
  extract_features_from_sample W (Py.Dict smp) = traverse (field_value W d) FIELDS.
Proof.
  intros H Hs. unfold extract_features_from_sample. cbn [Py.get]. rewrite H.
  cbn [from_option id mbind result_bind]. rewrite Hs. fields W.
Qed.

Lemma field_default key dflt :
  (key, dflt) ∈ FIELDS → Py.int_to_float dflt = Ok (float_of_Z dflt).
Proof.
  unfold FIELDS. rewrite !elem_of_cons, elem_of_nil.
  intros H. repeat (destruct H as [[= -> ->]|H]; [reflexivity|]). done.
Qed.

(** ** The scores *)

Lemma NoDup_within_length (l k : list Z) :
  NoDup l → (∀ x, x ∈ l → x ∈ k) → (length l ≤ length k)%nat.
Proof. intros Hnd Hsub. by apply submseteq_length, NoDup_submseteq. Qed.

(** Labels 0 and 1 on both sides pass the checks of a binary score. *)
Lemma check_binary_ok y_true y_pred :
  length y_true = length y_pred →
  (∀ l, l ∈ y_true ++ y_pred → l = 0 ∨ l = 1) →
  Sklearn.check_binary y_true y_pred = Ok tt.
Proof.
  intros Hlen Hbin. unfold Sklearn.check_binary, Sklearn.check_consistent_length.
  rewrite (bool_decide_true (length y_true = length y_pred)) by done.
  cbn [mbind result_bind].
  set (present := remove_dups (y_true ++ y_pred)).
  assert (NoDup present) as Hnd by apply NoDup_remove_dups.
  assert (∀ x, x ∈ present → x = 0 ∨ x = 1) as Hpresent.
  { intros x Hx. apply Hbin. by apply elem_of_remove_dups. }
  assert (length present ≤ 2)%nat as Hle.
  { apply (NoDup_within_length present [0; 1] Hnd).
    intros x Hx. destruct (Hpresent x Hx) as [-> | ->]; set_solver. }
  destruct (Nat.ltb_spec 2 (length present)); [lia|].
  destruct (decide (1 ∈ present)) as [Hin|Hnin].
  - by rewrite bool_decide_true.
  - rewrite bool_decide_false by done. cbn [negb andb].
    assert (length present ≤ 1)%nat.
    { apply (NoDup_within_length present [0] Hnd).
      intros x Hx. destruct (Hpresent x Hx) as [-> | ->]; [set_solver|contradiction]. }
    destruct (Nat.leb_spec 2 (length present)); [lia|done].
Qed.

Lemma count_none (p : Z → Z → bool) y_true y_pred :
  (∀ t q, (t, q) ∈ zip y_true y_pred → p t q = false) →
  Sklearn.count p y_true y_pred = 0.
Proof.
  intros Hnone. unfold Sklearn.count.
  induction (zip y_true y_pred) as [|[t q] l IH]; [done|].
  simpl. rewrite (Hnone t q) by set_solver. apply IH.
  intros t' q' Hin. apply Hnone. set_solver.
Qed.

(** ** The walk-forward split *)

Lemma elem_of_range start stop step x :
  0 < step → x ∈ Py.range start stop step → start ≤ x.
Proof.
  intros Hstep. unfold Py.range. rewrite list_elem_of_fmap.
  intros (i & -> & Hi). apply elem_of_seqZ in Hi. nia.
Qed.

Lemma length_range start stop step :
  length (Py.range start stop step)
  = Z.to_nat ((stop - start + step - 1) `div` step).
Proof. unfold Py.range. by rewrite length_fmap, length_seqZ. Qed.

(** A slice of [arange(n)] with non-negative bounds holds only indices
    between the bounds. *)
Lemma elem_of_slice_seqZ n a b x :
  0 ≤ a → 0 ≤ b → x ∈ Py.slice (seqZ 0 n) a b → a ≤ x < b.
Proof.
  intros Ha Hb. unfold Py.slice, Py.clip. rewrite length_seqZ.
  destruct (Z.ltb_spec a 0); [lia|]. destruct (Z.ltb_spec b 0); [lia|].
  intros Hx. apply list_elem_of_lookup in Hx as [i Hi].
  apply lookup_take_Some in Hi as [Hi Hlt].
  rewrite lookup_drop in Hi. apply lookup_seqZ in Hi as [-> Hi]. lia.
Qed.

Lemma split_inv k n tscv folds :
  Sklearn.TimeSeriesSplit_init k = Ok tscv →
  Sklearn.split tscv n = Ok folds →
  let test_size := n `div` (k + 1) in
  2 ≤ k ∧ 0 < test_size ∧ 0 < n - k * test_size
  ∧ folds = (λ test_start,
               (Py.slice (seqZ 0 n) 0 test_start,
                Py.slice (seqZ 0 n) test_start (test_start + test_size)))
            <$> Py.range (n - k * test_size) n test_size.
Proof.
  unfold Sklearn.TimeSeriesSplit_init, Sklearn.split.
  destruct (Z.leb_spec k 1); [done|]. intros [= <-]. simpl.
  destruct (Z.ltb_spec n (k + 1)); [done|].
  destruct (Z.leb_spec (n - n `div` (k + 1) * k) 0); [done|].
  intros [= <-].
  assert (0 < n `div` (k + 1)) by (apply Z.div_str_pos; lia).
  split_and!; [lia..|]. by rewrite (Z.mul_comm k).
Qed.

(** The split yields exactly [n_splits] folds. *)
Lemma split_length k n tscv folds :
  Sklearn.TimeSeriesSplit_init k = Ok tscv →
  Sklearn.split tscv n = Ok folds →
  Z.of_nat (length folds) = k.
Proof.
  intros Hinit Hsplit.
  destruct (split_inv k n tscv folds Hinit Hsplit) as (Hk & Hsize & Hfirst & ->).
  rewrite length_fmap, length_range.
  replace (n - (n - k * n `div` (k + 1)) + n `div` (k + 1) - 1)
    with (k * (n `div` (k + 1)) + (n `div` (k + 1) - 1)) by lia.
  rewrite Z.div_add_l by lia. rewrite Z.div_small by lia. lia.
Qed.

(** From 40 vectorized samples on, the splitter is built and yields its
    folds. *)
Lemma walk_forward_folds_ok n :
  40 ≤ n → ∃ folds, walk_forward_folds n = Ok folds.
Proof.
  intros Hn. unfold walk_forward_folds, fold_count, Sklearn.TimeSeriesSplit_init.
  assert (2 ≤ n `div` 20) by (apply Z.div_le_lower_bound; lia).
  set (k := Z.min 5 (n `div` 20)). assert (2 ≤ k ≤ 5) by lia.
  destruct (Z.leb_spec k 1); [lia|]. cbn [mbind result_bind].
  unfold Sklearn.split. simpl.
  destruct (Z.ltb_spec n (k + 1)); [lia|].
  assert (0 < n `div` (k + 1)) by (apply Z.div_str_pos; lia).
  assert ((k + 1) * (n `div` (k + 1)) ≤ n) by (apply Z.mul_div_le; lia).
  destruct (Z.leb_spec (n - n `div` (k + 1) * k) 0); [nia|]. eauto.
Qed.

(** ** The scorer *)

(** C1. When the model artifact exists, [predict] never raises and never
    exits by itself: it returns normally after printing exactly one
    record, and that record carries a numeric score. Whenever loading the
    artifact, parsing or vectorizing the feature map, or inference fails,
    the record is the fallback: score 0.5 and the text of the exception as
    its error. *)
Theorem predict_never_raises W features_json s :
  is_Some (model_file s) →
  ∃ record,
    predict W features_json s
    = (Normal tt, State true (model_file s) (status_file s) (stdout s ++ [record]))
    ∧ ((∃ score, record = score_record score)
       ∨ (∃ error, record = fallback_record error))
    ∧ (∃ score, field "score" record = Some (Py.Float score))
    ∧ (∀ e, scoring_failure W (model_file s) features_json e →
            record = fallback_record (exn_str e)
            ∧ field "score" record = Some (Py.Float half)
            ∧ field "error" record = Some (Py.Str (exn_str e))).
Proof.
  intros Hsome.
  destruct (predict_total W features_json s Hsome) as (record & Hrun & Hshape).
  exists record. split_and!; [done..| |].
  - destruct Hshape as [[score ->]|[error ->]]; by eexists.
  - intros e Hfail. rewrite (predict_failure W features_json s e Hfail) in Hrun.
    injection Hrun as Hout. by apply app_inv_head in Hout as [= <-].
Qed.

Lemma predict_never_raises_witness :
  is_Some (model_file (Example.with_artifact (Readable "45")))
  ∧ predict (Example.world [] []) "{" (Example.with_artifact (Readable "45"))
    = (Normal tt,
       State true (Some (Readable "45")) None
         [fallback_record "Expecting value: line 1 column 1 (char 0)"]).
Proof.
  split; [by eexists|].
  destruct (predict_never_raises (Example.world [] []) "{"
              (Example.with_artifact (Readable "45")))
    as (record & Hrun & _ & _ & Hfail); [by eexists|].
  rewrite Hrun.
  destruct (Hfail (Exn JSONDecodeError "Expecting value: line 1 column 1 (char 0)"))
    as [-> _]; [|reflexivity].
  by eapply malformed_feature_map.
Defined.

(** C7. When the model artifact does not exist, [predict] prints exactly
    the record with score 0.5 and the error "Model not found", and the
    process ends with exit code 0. *)
Theorem predict_without_artifact W prog features_json s :
  model_file s = None →
  main W [prog; "predict"; features_json] s
  = (Normal tt,
     State true None (status_file s)
       (stdout s ++ [Py.Dict {[ "score" := Py.Float half;
                                "error" := Py.Str "Model not found" ]}]))
  ∧ exit_code (main W [prog; "predict"; features_json] s).1 = 0.
Proof.
  intros Hnone.
  assert (main W [prog; "predict"; features_json] s = predict W features_json s)
    as -> by done.
  rewrite predict_run, Hnone. done.
Qed.

Lemma predict_without_artifact_witness :
  model_file Example.fresh = None
  ∧ exit_code (main (Example.world [] []) ["mlTrainer.py"; "predict"; "{}"]
                 Example.fresh).1 = 0.
Proof.
  split; [reflexivity|].
  by apply (predict_without_artifact (Example.world [] []) "mlTrainer.py" "{}"
              Example.fresh).
Defined.

(** ** The trainer *)

(** C2. For every sequence of sample records of which fewer than 50 are
    complete and labelled, [train] prints a structured failure record,
    ends by [sys.exit(1)], and leaves the model artifact and the status
    file as they were. *)
Theorem train_insufficient_data W path s text ds :
  open_read W path = Ok text →
  json_loads W text = Ok (Py.List (Py.Dict <$> ds)) →
  (length (List.filter trainable ds) < 50)%nat →
  ∃ error s',
    train W path s = (SysExit 1, s')
    ∧ exit_code (train W path s).1 ≠ 0
    ∧ stdout s' = stdout s ++ [Py.Dict {[ "success" := Py.Bool false;
                                          "error" := Py.Str error ]}]
    ∧ model_file s' = model_file s
    ∧ status_file s' = status_file s.
Proof.
  intros Hopen Hjson Hfew.
  destruct (sklearn_installed W) eqn:Hsk.
  - erewrite train_run; [|done|done|done|simpl; apply filter_trainable].
    rewrite length_fmap.
    destruct (Nat.ltb_spec (length (List.filter trainable ds)) 50); [|lia].
    by eexists _, _.
  - rewrite train_without_sklearn by done. by eexists _, _.
Qed.

Lemma train_insufficient_data_witness :
  open_read (Example.samples_world 45 4) "samples.json" = Ok "<samples>"
  ∧ json_loads (Example.samples_world 45 4) "<samples>"
    = Ok (Py.List (Py.Dict <$> Example.records 45 4))
  ∧ (length (List.filter trainable (Example.records 45 4)) < 50)%nat
  ∧ ∃ error s',
      train (Example.samples_world 45 4) "samples.json" Example.fresh = (SysExit 1, s')
      ∧ exit_code (train (Example.samples_world 45 4) "samples.json" Example.fresh).1 ≠ 0
      ∧ stdout s' = stdout Example.fresh
                    ++ [Py.Dict {[ "success" := Py.Bool false;
                                   "error" := Py.Str error ]}]
      ∧ model_file s' = model_file Example.fresh
      ∧ status_file s' = status_file Example.fresh.
Proof.
  assert (length (List.filter trainable (Example.records 45 4)) < 50)%nat as Hfew
    by (vm_compute; lia).
  split_and!; [reflexivity|reflexivity|exact Hfew|].
  apply (train_insufficient_data (Example.samples_world 45 4) "samples.json"
           Example.fresh "<samples>" (Example.records 45 4));
    [reflexivity|reflexivity|exact Hfew].
Defined.

(** C9. When the imports succeed and the samples file cannot be read, or
    its content is not valid JSON, [train] ends with the uncaught
    exception of the [open] or of the parser: nothing is printed, in
    particular no record with [success] false, and no file is written. *)
Theorem train_unreadable_samples_raises W path s e :
  sklearn_installed W = true →
  open_read W path = Err e
  ∨ (∃ text, open_read W path = Ok text ∧ json_loads W text = Err e) →
  train W path s = (Raised e, State true (model_file s) (status_file s) (stdout s)).
Proof.
  intros Hsk H. unfold train. rewrite Hsk. run.
  destruct H as [H | (text & H1 & H2)].
  - rewrite H. by run.
  - rewrite H1. run. rewrite H2. by run.
Qed.

Lemma train_unreadable_samples_raises_witness :
  sklearn_installed (Example.world [] []) = true
  ∧ open_read (Example.world [] []) "samples.json"
    = Err (Exn OSError "[Errno 2] No such file or directory")
  ∧ train (Example.world [] []) "samples.json" Example.fresh
    = (Raised (Exn OSError "[Errno 2] No such file or directory"),
       State true None None []).
Proof.
  split_and!; [reflexivity|reflexivity|].
  apply (train_unreadable_samples_raises (Example.world [] []) "samples.json"
           Example.fresh); [reflexivity|left; reflexivity].
Defined.

(** The same when the file is readable and is not JSON. *)
Example train_invalid_json_raises :
  train (Example.world [("samples.json", "not json")] []) "samples.json" Example.fresh
  = (Raised (Exn JSONDecodeError "Expecting value: line 1 column 1 (char 0)"),
     State true None None []).
Proof.
  apply train_unreadable_samples_raises; [reflexivity|].
  right. by exists "not json".
Qed.

(** C6, as amended. After every successful run of [train] on a sequence
    of sample records, the [nSamples] written to the status file is the
    number of complete and labelled records, those dropped by the
    vectorization included. *)
Theorem nSamples_counts_complete_samples W path s s' text ds :
  open_read W path = Ok text →
  json_loads W text = Ok (Py.List (Py.Dict <$> ds)) →
  train W path s = (Normal tt, s') →
  status_nSamples s' = Some (Py.Int (Z.of_nat (length (List.filter trainable ds)))).
Proof.
  intros Hopen Hjson.
  destruct (sklearn_installed W) eqn:Hsk.
  - erewrite train_run; [|done|done|done|simpl; apply filter_trainable].
    destruct (_ <? _)%nat; [done|].
    destruct (fit_and_score _ _) as [[scores final_model]|e]; [|done].
    intros [= <-]. rewrite <- (length_fmap Py.Dict).
    exact (metrics_nSamples _ _ _).
  - by rewrite train_without_sklearn.
Qed.

Lemma nSamples_counts_complete_samples_witness :
  open_read (Example.samples_world 45 5) "samples.json" = Ok "<samples>"
  ∧ json_loads (Example.samples_world 45 5) "<samples>"
    = Ok (Py.List (Py.Dict <$> Example.records 45 5))
  ∧ (train (Example.samples_world 45 5) "samples.json" Example.fresh).1 = Normal tt
  ∧ status_nSamples (train (Example.samples_world 45 5) "samples.json" Example.fresh).2
    = Some (Py.Int (Z.of_nat (length (List.filter trainable (Example.records 45 5))))).
Proof.
  split_and!; [reflexivity|reflexivity|vm_compute; reflexivity|].
  apply (nSamples_counts_complete_samples (Example.samples_world 45 5)
           "samples.json" Example.fresh _ "<samples>" (Example.records 45 5));
    [reflexivity|reflexivity|].
  vm_compute; reflexivity.
Defined.

(** C6, as stated, fails: of 50 complete and labelled records, 5 have a
    [null] indicator and are dropped by the vectorization; the run
    succeeds and reports [nSamples] 50, not 50 - 5. *)
Lemma nSamples_excludes_dropped_counterexample :
  json_loads (Example.samples_world 45 5) "<samples>"
  = Ok (Py.List (Py.Dict <$> Example.records 45 5))
  ∧ (train (Example.samples_world 45 5) "samples.json" Example.fresh).1 = Normal tt
  ∧ length (List.filter trainable (Example.records 45 5)) = 50%nat
  ∧ dropped (Example.samples_world 45 5)
      (List.filter trainable (Example.records 45 5)) = 5%nat
  ∧ status_nSamples (train (Example.samples_world 45 5) "samples.json" Example.fresh).2
    = Some (Py.Int 50)
  ∧ status_nSamples (train (Example.samples_world 45 5) "samples.json" Example.fresh).2
    ≠ Some (Py.Int (50 - 5)).
Proof.
  assert (status_nSamples
            (train (Example.samples_world 45 5) "samples.json" Example.fresh).2
          = Some (Py.Int 50)) as Hn by (vm_compute; reflexivity).
  split_and!;
    [reflexivity|vm_compute; reflexivity|vm_compute; reflexivity
    |vm_compute; reflexivity|exact Hn|].
  rewrite Hn. discriminate.
Qed.

(** C10. The minimum of 50 is tested on the complete and labelled samples,
    before the vectorization: once it has passed, the outcome of [train]
    is that of [fit_and_score] on whatever rows survive, and the
    insufficient-data failure cannot occur any more. On 50 such samples of
    which 5 are dropped, the run succeeds, the final model is fitted on 45
    rows, fewer than 50 and fewer than the [nSamples] it reports. *)
Theorem minimum_checked_before_vectorization :
  (∀ W path s text samples complete,
     sklearn_installed W = true →
     open_read W path = Ok text →
     json_loads W text = Ok samples →
     (items ← Py.iter samples; filter_r is_complete_and_labelled items) = Ok complete →
     (50 ≤ length complete)%nat →
     train W path s
     = match fit_and_score W complete with
       | Ok (scores, final_model) =>
           (Normal tt,
            State true (Some (Readable (pickle_dumps W final_model)))
              (Some (metrics_record W scores complete))
              (stdout s ++ [success_record (metrics_record W scores complete)]))
       | Err e => (Raised e, State true (model_file s) (status_file s) (stdout s))
       end)
  ∧ (∃ W path s complete X y final_model,
       (items ← (text ← open_read W path; samples ← json_loads W text; Py.iter samples);
        filter_r is_complete_and_labelled items) = Ok complete
       ∧ build_dataset W complete = (X, y)
       ∧ fit W forest X y = Ok final_model
       ∧ (train W path s).1 = Normal tt
       ∧ model_file (train W path s).2 = Some (Readable (pickle_dumps W final_model))
       ∧ status_nSamples (train W path s).2 = Some (Py.Int 50)
       ∧ length complete = 50%nat
       ∧ length X = 45%nat).
Proof.
  split.
  - intros W path s text samples complete Hsk Hopen Hjson Hfilter Hmin.
    rewrite (train_run W path s text samples complete) by done.
    by destruct (Nat.ltb_spec (length complete) 50); [lia|].
  - exists (Example.samples_world 45 5), "samples.json", Example.fresh,
      (Py.Dict <$> Example.records 45 5).
    eexists _, _, 45%nat.
    split_and!; [apply records_complete|vm_compute; reflexivity..].
Qed.

(** ** The walk-forward evaluator *)

(** C3, as amended. The fold count requested for [n] vectorized samples is
    [min(5, floor(n/20))], with no floor at 1: it is at least 1 exactly
    when [n >= 20]. Whenever the splitter is built, the evaluation runs
    exactly that many folds, and from 40 samples on it is built and runs
    between 2 and 5 folds. *)
Theorem fold_count_not_floored n :
  0 ≤ n →
  (1 ≤ fold_count n ↔ 20 ≤ n)
  ∧ (∀ folds, walk_forward_folds n = Ok folds →
              Z.of_nat (length folds) = Z.min 5 (n `div` 20))
  ∧ (40 ≤ n → ∃ folds, walk_forward_folds n = Ok folds
                       ∧ 2 ≤ Z.of_nat (length folds) ≤ 5).
Proof.
  intros Hn. split_and!.
  - unfold fold_count. split.
    + intros H. destruct (Z.lt_ge_cases n 20) as [Hlt|]; [|done].
      rewrite Z.div_small in H by lia. lia.
    + intros H. assert (1 ≤ n `div` 20) by (apply Z.div_le_lower_bound; lia). lia.
  - unfold walk_forward_folds. intros folds Hfolds.
    destruct (Sklearn.TimeSeriesSplit_init _) as [tscv|] eqn:Hinit; [|done].
    by apply (split_length _ _ _ _ Hinit Hfolds).
  - intros Hbig. destruct (walk_forward_folds_ok n Hbig) as [folds Hfolds].
    exists folds. split; [done|].
    assert (2 ≤ n `div` 20) by (apply Z.div_le_lower_bound; lia).
    unfold walk_forward_folds in Hfolds.
    destruct (Sklearn.TimeSeriesSplit_init _) as [tscv|] eqn:Hinit; [|done].
    rewrite (split_length _ _ _ _ Hinit Hfolds). unfold fold_count. lia.
Qed.

Lemma fold_count_not_floored_witness :
  0 ≤ 45
  ∧ ∃ folds, walk_forward_folds 45 = Ok folds ∧ Z.of_nat (length folds) = 2.
Proof.
  split; [lia|].
  destruct (fold_count_not_floored 45) as (_ & Hcount & Hfolds); [lia|].
  destruct Hfolds as (folds & Hok & _); [lia|].
  exists folds. split; [exact Hok|]. by rewrite (Hcount folds Hok).
Defined.

(** C3, as stated, fails: of 50 complete and labelled records, 40 are
    dropped by the vectorization, so 10 samples reach the evaluator; the
    fold count is 0, it is not raised to 1, the splitter refuses it and
    [train] ends with that exception. *)
Lemma fold_count_floored_counterexample :
  (items ← Py.iter (Example.samples 10 40);
   filter_r is_complete_and_labelled items)
  = Ok (Py.Dict <$> Example.records 10 40)
  ∧ length (Py.Dict <$> Example.records 10 40) = 50%nat
  ∧ length (build_dataset (Example.samples_world 10 40)
              (Py.Dict <$> Example.records 10 40)).1 = 10%nat
  ∧ fold_count 10 = 0
  ∧ ¬ (1 ≤ fold_count 10)
  ∧ walk_forward_folds 10
    = Err (Exn ValueError "k-fold cross-validation requires at least one train/test split by setting n_splits=2 or more, got n_splits=0.")
  ∧ train (Example.samples_world 10 40) "samples.json" Example.fresh
    = (Raised (Exn ValueError "k-fold cross-validation requires at least one train/test split by setting n_splits=2 or more, got n_splits=0."),
       State true None None []).
Proof.
  split_and!;
    [apply records_complete|vm_compute; reflexivity..| |vm_compute; reflexivity
    |vm_compute; reflexivity].
  vm_compute. intros H. by apply H.
Qed.

(** C4. In every fold of the walk-forward split, every training index is
    strictly less than every test index. *)
Theorem walk_forward_train_before_test k n tscv folds train_idx test_idx i j :
  Sklearn.TimeSeriesSplit_init k = Ok tscv →
  Sklearn.split tscv n = Ok folds →
  (train_idx, test_idx) ∈ folds →
  i ∈ train_idx → j ∈ test_idx →
  i < j.
Proof.
  intros Hinit Hsplit Hfold Hi Hj.
  destruct (split_inv k n tscv folds Hinit Hsplit) as (Hk & Hsize & Hfirst & ->).
  apply list_elem_of_fmap in Hfold as (test_start & [= -> ->] & Hstart).
  apply elem_of_range in Hstart; [|done].
  apply elem_of_slice_seqZ in Hi; [|lia..].
  apply elem_of_slice_seqZ in Hj; [|lia..].
  lia.
Qed.

Lemma walk_forward_train_before_test_witness :
  Sklearn.TimeSeriesSplit_init (fold_count 45) = Ok {| Sklearn.n_splits := 2 |}
  ∧ Sklearn.split {| Sklearn.n_splits := 2 |} 45
    = Ok [(seqZ 0 15, seqZ 15 15); (seqZ 0 30, seqZ 30 15)]
  ∧ (seqZ 0 30, seqZ 30 15) ∈ [(seqZ 0 15, seqZ 15 15); (seqZ 0 30, seqZ 30 15)]
  ∧ 29 ∈ seqZ 0 30
  ∧ 30 ∈ seqZ 30 15
  ∧ 29 < 30.
Proof.
  assert ((seqZ 0 30, seqZ 30 15)
          ∈ [(seqZ 0 15, seqZ 15 15); (seqZ 0 30, seqZ 30 15)]) as Hfold
    by (apply list_elem_of_lookup; exists 1%nat; reflexivity).
  assert (29 ∈ seqZ 0 30) as Hi
    by (apply list_elem_of_lookup; exists 29%nat; reflexivity).
  assert (30 ∈ seqZ 30 15) as Hj
    by (apply list_elem_of_lookup; exists 0%nat; reflexivity).
  split_and!; [reflexivity|reflexivity|exact Hfold|exact Hi|exact Hj|].
  apply (walk_forward_train_before_test (fold_count 45) 45 {| Sklearn.n_splits := 2 |}
           [(seqZ 0 15, seqZ 15 15); (seqZ 0 30, seqZ 30 15)]
           (seqZ 0 30) (seqZ 30 15) 29 30);
    [reflexivity|reflexivity|exact Hfold|exact Hi|exact Hj].
Defined.

(** C8. For binary labels, the precision of a fold is 0 when its
    predictions hold no positive, and its recall is 0 when its ground
    truth holds no positive: both scores are returned, as the float 0,
    not as an error nor as NaN. *)
Theorem precision_recall_zero_division (y_true y_pred : list Z) :
  length y_true = length y_pred →
  (∀ l, l ∈ y_true ++ y_pred → l = 0 ∨ l = 1) →
  ((∀ l, l ∈ y_pred → l ≠ 1) → Sklearn.precision_score y_true y_pred = Ok fzero)
  ∧ ((∀ l, l ∈ y_true → l ≠ 1) → Sklearn.recall_score y_true y_pred = Ok fzero)
  ∧ fzero ≠ S754_nan.
Proof.
  intros Hlen Hbin. unfold Sklearn.precision_score, Sklearn.recall_score.
  rewrite (check_binary_ok y_true y_pred Hlen Hbin). cbn [mbind result_bind].
  split_and!; [| |done]; intros Hnone; f_equal; unfold Sklearn.prf_divide.
  - unfold Sklearn.pred_sum. rewrite count_none; [done|].
    intros t q Hin. apply elem_of_zip_r in Hin.
    unfold Sklearn.is_pos. specialize (Hnone q Hin). lia.
  - unfold Sklearn.true_sum. rewrite count_none; [done|].
    intros t q Hin. apply elem_of_zip_l in Hin.
    unfold Sklearn.is_pos. specialize (Hnone t Hin). lia.
Qed.

Lemma precision_recall_zero_division_witness :
  length [0; 1; 0] = length [0; 0; 0]
  ∧ (∀ l, l ∈ [0; 1; 0] ++ [0; 0; 0] → l = 0 ∨ l = 1)
  ∧ (∀ l, l ∈ [0; 0; 0] → l ≠ 1)
  ∧ Sklearn.precision_score [0; 1; 0] [0; 0; 0] = Ok fzero
  ∧ (∀ l, l ∈ [0; 0; 0] ++ [0; 1; 0] → l = 0 ∨ l = 1)
  ∧ Sklearn.recall_score [0; 0; 0] [0; 1; 0] = Ok fzero.
Proof.
  assert (∀ l : Z, l ∈ [0; 1; 0] ++ [0; 0; 0] → l = 0 ∨ l = 1) as Hbin.
  { intros l Hl. simpl in Hl.
    repeat (apply elem_of_cons in Hl as [->|Hl]; [auto|]).
    by apply elem_of_nil in Hl. }
  assert (∀ l : Z, l ∈ [0; 0; 0] ++ [0; 1; 0] → l = 0 ∨ l = 1) as Hbin'.
  { intros l Hl. simpl in Hl.
    repeat (apply elem_of_cons in Hl as [->|Hl]; [auto|]).
    by apply elem_of_nil in Hl. }
  assert (∀ l : Z, l ∈ [0; 0; 0] → l ≠ 1) as Hnone.
  { intros l Hl.
    repeat (apply elem_of_cons in Hl as [->|Hl]; [lia|]).
    by apply elem_of_nil in Hl. }
  split_and!; [reflexivity|exact Hbin|exact Hnone| |exact Hbin'|].
  - exact (proj1 (precision_recall_zero_division [0; 1; 0] [0; 0; 0] eq_refl Hbin)
             Hnone).
  - exact (proj1 (proj2 (precision_recall_zero_division [0; 0; 0] [0; 1; 0]
                           eq_refl Hbin')) Hnone).
Defined.

(** ** The feature vectorizer *)

(** C5. For every feature map whose present fields hold numbers (values
    that [float] accepts), given as a native mapping or as a text that
    parses to it, the vectorizer of [train] and the row of [predict]
    produce the same vector: 16 floats, the i-th being the i-th field of
    the table of section 4.1, with the table's default (50 for [rsi14]
    and [confidence], 0 for the others) when the field is absent. *)
Theorem vectorizer_fields_and_defaults W (d : gmap string Py.val) :
  (∀ key dflt v, (key, dflt) ∈ FIELDS → d !! key = Some v →
                 is_ok (py_float W v) = true) →
  ∃ vec : list pyfloat,
    (∀ smp, smp !! "featuresJson" = Some (Py.Dict d) →
            extract_features_from_sample W (Py.Dict smp) = Ok vec)
    ∧ (∀ smp s, smp !! "featuresJson" = Some (Py.Str s) →
                json_loads W s = Ok (Py.Dict d) →
                extract_features_from_sample W (Py.Dict smp) = Ok vec)
    ∧ (∀ s, json_loads W s = Ok (Py.Dict d) → predict_row W s = Ok vec)
    ∧ length vec = 16%nat
    ∧ (∀ i key dflt, FIELDS !! i = Some (key, dflt) →
         ∃ x, vec !! i = Some x
              ∧ match d !! key with
                | Some v => py_float W v = Ok x
                | None => x = float_of_Z dflt
                end).
Proof.
  intros Hnum.
  destruct (traverse_total (field_value W d) FIELDS) as [vec Hvec].
  { apply Forall_forall. intros [key dflt] Hin. unfold field_value. simpl.
    destruct (d !! key) as [v|] eqn:Hv; simpl; [by eauto|].
    by rewrite (field_default key dflt Hin). }
  exists vec. split_and!.
  - intros smp H. by rewrite (extract_features_native W smp d H).
  - intros smp s H Hs. by rewrite (extract_features_text W smp s d H Hs).
  - intros s Hs. by rewrite (predict_row_fields W s d Hs).
  - apply traverse_Forall2, Forall2_length in Hvec. by rewrite <- Hvec.
  - intros i key dflt Hi. apply traverse_Forall2 in Hvec.
    destruct (Forall2_lookup_l _ _ _ _ _ Hvec Hi) as (x & Hx & Hfx).
    exists x. split; [done|]. unfold field_value in Hfx. simpl in Hfx.
    destruct (d !! key) as [v|]; simpl in Hfx; [done|].
    assert ((key, dflt) ∈ FIELDS) as Hin by (by eapply list_elem_of_lookup_2).
    rewrite (field_default key dflt Hin) in Hfx. by injection Hfx.
Qed.

Lemma vectorizer_fields_and_defaults_witness :
  (∀ key dflt v, (key, dflt) ∈ FIELDS →
     ({[ "rsi14" := Py.Int 60 ]} : gmap string Py.val) !! key = Some v →
     is_ok (py_float (Example.world [] []) v) = true)
  ∧ ∃ vec : list pyfloat,
      extract_features_from_sample (Example.world [] []) (Py.Dict Example.good_sample)
      = Ok vec
      ∧ vec = float_of_Z 60 :: replicate 14 (float_of_Z 0) ++ [float_of_Z 50].
Proof.
  assert (∀ key dflt v, (key, dflt) ∈ FIELDS →
            ({[ "rsi14" := Py.Int 60 ]} : gmap string Py.val) !! key = Some v →
            is_ok (py_float (Example.world [] []) v) = true) as Hnum.
  { intros key dflt v _ Hv. apply lookup_singleton_Some in Hv as [<- <-].
    reflexivity. }
  split; [exact Hnum|].
  destruct (vectorizer_fields_and_defaults (Example.world [] [])
              {[ "rsi14" := Py.Int 60 ]} Hnum)
    as (vec & Hnative & _ & _ & _ & _).
  exists vec. split; [by apply Hnative|].
  specialize (Hnative Example.good_sample eq_refl).
  vm_compute in Hnative. by injection Hnative as <-.
Defined.

(** The defaults of the table are the doubles 50.0 and 0.0, and the
    fallback score is the double 0.5. *)
Example default_values :
  float_of_Z 50 = S754_finite false (50 * 2 ^ 47) (-47)
  ∧ float_of_Z 0 = S754_zero false
  ∧ half = S754_finite false (2 ^ 52) (-53)
  ∧ fdiv (float_of_Z 1) (float_of_Z 2) = half.
Proof. by vm_compute. Qed.

(** * Further properties of the script *)

(** ** The outcomes of [train] *)

(** [train], in full: the imports, the loading, the minimum, then
    [fit_and_score]. *)
Lemma train_spec W path s :
  train W path s
  = if sklearn_installed W
    then match load_complete W path with
         | Ok complete =>
             if (length complete <? 50)%nat
             then (SysExit 1,
                   State true (model_file s) (status_file s)
                     (stdout s ++ [failure_record
                                     ("Not enough samples: " +:+ pretty (length complete))]))
             else match fit_and_score W complete with
                  | Ok (scores, final_model) =>
                      (Normal tt,
                       State true (Some (Readable (pickle_dumps W final_model)))
                         (Some (metrics_record W scores complete))
                         (stdout s ++ [success_record (metrics_record W scores complete)]))
                  | Err e =>
                      (Raised e, State true (model_file s) (status_file s) (stdout s))
                  end
         | Err e => (Raised e, State true (model_file s) (status_file s) (stdout s))
         end
    else (SysExit 1,
          State (model_dir s) (model_file s) (status_file s)
            (stdout s ++ [failure_record "sklearn not installed"])).
Proof.
  destruct (sklearn_installed W) eqn:Hsk; [|by apply train_without_sklearn].
  unfold load_complete.
  destruct (open_read W path) as [text|e] eqn:Hopen; cbn [mbind result_bind].
  - destruct (json_loads W text) as [samples|e] eqn:Hjson; cbn [mbind result_bind].
    + destruct (items ← Py.iter samples; filter_r is_complete_and_labelled items)
        as [complete|e] eqn:Hfilter.
      * by rewrite (train_run W path s text samples complete) by done.
      * unfold train. rewrite Hsk. run. rewrite Hopen. run. rewrite Hjson. run.
        by rewrite Hfilter.
    + unfold train. rewrite Hsk. run. rewrite Hopen. run. by rewrite Hjson.
  - unfold train. rewrite Hsk. run. by rewrite Hopen.
Qed.

Lemma train_outcomes' W path s :
  (∃ error dir,
     train W path s
     = (SysExit 1,
        State dir (model_file s) (status_file s) (stdout s ++ [failure_record error])))
  ∨ (∃ e,
       train W path s
       = (Raised e, State true (model_file s) (status_file s) (stdout s)))
  ∨ (∃ final_model metrics,
       train W path s
       = (Normal tt,
          State true (Some (Readable (pickle_dumps W final_model))) (Some metrics)
            (stdout s ++ [success_record metrics]))).
Proof.
  rewrite train_spec.
  destruct (sklearn_installed W); [|left; by eexists _, _].
  destruct (load_complete W path) as [complete|e]; [|right; left; by eexists].
  destruct (_ <? _)%nat; [left; by eexists _, _|].
  destruct (fit_and_score W complete) as [[scores final_model]|e].
  - right; right. by eexists _, _.
  - right; left. by eexists.
Qed.




(** ** The dispatcher and the scorer, in every state *)

(** X3. An invocation with fewer than three arguments, or with a command
    that is neither [train] nor [predict], prints one [{error: ...}]
    record and exits with status 1 without touching the model directory
    or any file. With fewer than two arguments the error is the usage
    line; otherwise it is "Unknown command: " followed by the command,
    also for [train] or [predict] given without their argument. *)
Theorem main_rejects_bad_invocation W argv s :
  (length argv < 3)%nat
  ∨ (argv !! 1%nat ≠ Some "train" ∧ argv !! 1%nat ≠ Some "predict") →
  main W argv s
  = (SysExit 1,
     State (model_dir s) (model_file s) (status_file s)
       (stdout s ++ [Py.Dict {[ "error" := Py.Str
           (if (length argv <? 2)%nat
            then "Usage: mlTrainer.py <train|predict> <arg>"
            else "Unknown command: " +:+ default "" (argv !! 1%nat)) ]}])).
Proof.
  intros Hbad. unfold main.
  destruct (Nat.ltb_spec (length argv) 2) as [Hlen|Hlen]; [by run|].
  destruct (argv !! 1%nat) as [command|] eqn:Hcommand;
    [|apply lookup_ge_None in Hcommand; lia].
  cbn [default from_option id].
  destruct (Nat.leb_spec 3 (length argv)) as [Hargs|Hargs].
  - destruct Hbad as [Hshort|[Htrain Hpredict]]; [lia|].
    destruct (String.eqb_spec command "train") as [->|_]; [done|].
    destruct (String.eqb_spec command "predict") as [->|_]; [done|].
    by run.
  - rewrite !andb_false_r. by run.
Qed.

Lemma main_rejects_bad_invocation_witness :
  (length ["mlTrainer.py"; "train"] < 3)%nat
  ∧ main (Example.world [] []) ["mlTrainer.py"; "train"] Example.fresh
    = (SysExit 1,
       State false None None
         [Py.Dict {[ "error" := Py.Str "Unknown command: train" ]}]).
Proof.
  split; [simpl; lia|].
  apply (main_rejects_bad_invocation (Example.world [] []) ["mlTrainer.py"; "train"]
           Example.fresh).
  left. simpl. lia.
Defined.


Lemma predict_one_record W fj s :
  ∃ record,
    predict W fj s
    = (Normal tt, State true (model_file s) (status_file s) (stdout s ++ [record])).
Proof.
  destruct (model_file s) as [f|] eqn:Hfile.
  - destruct (predict_total W fj s) as (record & Hrun & _); [by rewrite Hfile|].
    rewrite Hfile in Hrun. by exists record.
  - rewrite predict_run, Hfile. by eexists.
Qed.

(** X5. In every state, [predict] returns normally, prints exactly one
    record with a float [score], ensures the model directory and leaves
    the model artifact and the status file as they were. *)
Theorem predict_is_read_only W features_json s :
  ∃ record,
    predict W features_json s
    = (Normal tt, State true (model_file s) (status_file s) (stdout s ++ [record]))
    ∧ ∃ score, field "score" record = Some (Py.Float score).
Proof.
  destruct (model_file s) as [f|] eqn:Hfile.
  - destruct (predict_total W features_json s) as (record & Hrun & Hshape);
      [by rewrite Hfile|].
    rewrite Hfile in Hrun. exists record. split; [done|].
    destruct Hshape as [[score ->]|[error ->]]; by eexists.
  - rewrite predict_run, Hfile. eexists. split; [done|]. by eexists.
Qed.

(** X4. Every invocation prints at most one record, and exactly one unless
    it ends with an uncaught exception; it ends normally or with exit
    status 1. *)
Theorem main_prints_at_most_one_record W argv s :
  ∃ out,
    stdout (main W argv s).2 = stdout s ++ out
    ∧ (length out ≤ 1)%nat
    ∧ (out = [] ↔ ∃ e, (main W argv s).1 = Raised e)
    ∧ ((main W argv s).1 = Normal tt ∨ exit_code (main W argv s).1 = 1).
Proof.
  assert (∀ r : ctl unit * state,
            (∃ record, r.2.(stdout) = stdout s ++ [record]
                       ∧ (r.1 = Normal tt ∨ r.1 = SysExit 1))
            ∨ (∃ e, r.1 = Raised e ∧ r.2.(stdout) = stdout s) →
            ∃ out, stdout r.2 = stdout s ++ out
                   ∧ (length out ≤ 1)%nat
                   ∧ (out = [] ↔ ∃ e, r.1 = Raised e)
                   ∧ (r.1 = Normal tt ∨ exit_code r.1 = 1)) as Hshape.
  { intros [c s'] [(record & Hout & Hc)|(e & Hc & Hout)]; simpl in *.
    - exists [record]. split_and!; [done|simpl; lia| |].
      + split; [done|]. intros [e He]. destruct Hc as [Hc|Hc]; congruence.
      + destruct Hc as [->| ->]; auto.
    - exists []. rewrite app_nil_r. split_and!; [done|simpl; lia| |].
      + split; [by eauto|done].
      + subst c. auto. }
  apply Hshape.
  assert (∀ error,
            ∃ record, stdout (State (model_dir s) (model_file s) (status_file s)
                                (stdout s ++ [usage_record error]))
                      = stdout s ++ [record]
                      ∧ ((SysExit 1 : ctl unit) = Normal tt ∨ (SysExit 1 : ctl unit) = SysExit 1))
    as Husage by (intros error; eexists; split; [done|by right]).
  unfold main.
  destruct (length argv <? 2)%nat; [left; run; by apply Husage|].
  destruct (String.eqb _ "train" && _).
  - destruct (train_outcomes' W (default "" (argv !! 2%nat)) s)
      as [(error & dir & ->)|[(e & ->)|(m & metrics & ->)]].
    + left. eexists. split; [done|by right].
    + right. by eexists.
    + left. eexists. split; [done|by left].
  - destruct (String.eqb _ "predict" && _).
    + destruct (predict_one_record W (default "" (argv !! 2%nat)) s) as [record ->].
      left. eexists. split; [done|by left].
    + left. run. by apply Husage.
Qed.


(** X6. When the artifact loads, the feature map vectorizes and the model
    returns a probability row, [predict] prints [{score: p}] with no error
    field, where [p] is the second entry of the row, or 0.5 when the row
    has fewer than two entries. *)
Theorem predict_score_is_second_probability W features_json s content m row proba rest :
  model_file s = Some (Readable content) →
  pickle_loads W content = Ok m →
  predict_row W features_json = Ok row →
  predict_proba W m [row] = Ok (proba :: rest) →
  predict W features_json s
  = (Normal tt,
     State true (model_file s) (status_file s)
       (stdout s ++ [Py.Dict {[ "score" := Py.Float (default half (proba !! 1%nat)) ]}])).
Proof.
  intros Hfile Hload Hrow Hproba.
  rewrite predict_run, predict_try_run. cbn [model_file].
  rewrite Hfile, Hload, Hrow, Hproba, bool_decide_true by done.
  by destruct proba as [|p0 [|p1 proba]].
Qed.

Lemma predict_score_is_second_probability_witness :
  predict (Example.world [] [("{}", Py.Dict ∅)]) "{}" (Example.with_artifact (Readable "45"))
  = (Normal tt,
     State true (Some (Readable "45")) None [Py.Dict {[ "score" := Py.Float half ]}]).
Proof.
  apply (predict_score_is_second_probability (Example.world [] [("{}", Py.Dict ∅)]) "{}"
           (Example.with_artifact (Readable "45")) "45" 45%nat default_vector
           [half; half] []); reflexivity.
Defined.

(** X7. After a successful [train], the artifact is the pickle of the
    model fitted on the whole dataset; if it unpickles to that model,
    [predict] on the resulting state scores with it. *)
Theorem train_then_predict W path s s' features_json :
  train W path s = (Normal tt, s') →
  ∃ complete final_model,
    load_complete W path = Ok complete
    ∧ fit W forest (build_dataset W complete).1 (build_dataset W complete).2
      = Ok final_model
    ∧ model_file s' = Some (Readable (pickle_dumps W final_model))
    ∧ (pickle_loads W (pickle_dumps W final_model) = Ok final_model →
       ∀ row proba rest,
         predict_row W features_json = Ok row →
         predict_proba W final_model [row] = Ok (proba :: rest) →
         predict W features_json s'
         = (Normal tt,
            State true (model_file s') (status_file s')
              (stdout s' ++ [score_record (default half (proba !! 1%nat))]))).
Proof.
  rewrite train_spec.
  destruct (sklearn_installed W); [|done].
  destruct (load_complete W path) as [complete|e]; [|done].
  destruct (_ <? _)%nat; [done|].
  destruct (fit_and_score W complete) as [[scores final_model]|e] eqn:Hfit; [|done].
  intros [= <-]. exists complete, final_model.
  assert (fit W forest (build_dataset W complete).1 (build_dataset W complete).2
          = Ok final_model) as Hfinal.
  { unfold fit_and_score in Hfit.
    destruct (Sklearn.TimeSeriesSplit_init _) as [tscv|]; [|done].
    cbn [mbind result_bind] in Hfit.
    destruct (Sklearn.split _ _) as [folds|]; [|done].
    cbn [mbind result_bind] in Hfit.
    destruct (traverse _ _) as [scores'|]; [|done].
    cbn [mbind result_bind] in Hfit.
    destruct (fit _ _ _ _) as [m|]; [|done]. by injection Hfit as _ ->. }
  split_and!; [done..|].
  intros Hpickle row proba rest Hrow Hproba.
  rewrite predict_run, predict_try_run. cbn [model_file status_file stdout].
  rewrite Hpickle, Hrow, Hproba, bool_decide_true by done.
  by destruct proba as [|p0 [|p1 proba]].
Qed.

Lemma round_trip_load :
  load_complete round_trip_world "samples.json"
  = Ok (Py.Dict <$> Example.records 50 0).
Proof.
  unfold load_complete.
  change (open_read round_trip_world "samples.json")
    with (Ok "<samples>" : result string).
  cbn [mbind result_bind].
  change (json_loads round_trip_world "<samples>") with (Ok (Example.samples 50 0)).
  cbn [mbind result_bind]. apply records_complete.
Qed.

Lemma round_trip_train :
  train round_trip_world "samples.json" Example.fresh
  = (Normal tt, (train round_trip_world "samples.json" Example.fresh).2).
Proof. vm_compute; reflexivity. Qed.

Lemma round_trip_fit :
  fit round_trip_world forest
    (build_dataset round_trip_world (Py.Dict <$> Example.records 50 0)).1
    (build_dataset round_trip_world (Py.Dict <$> Example.records 50 0)).2
  = Ok 50%nat.
Proof. vm_compute; reflexivity. Qed.

Lemma train_then_predict_witness :
  ∃ s',
    train round_trip_world "samples.json" Example.fresh = (Normal tt, s')
    ∧ predict round_trip_world "{}" s'
      = (Normal tt,
         State true (model_file s') (status_file s')
           (stdout s' ++ [score_record (default half ([half; half] !! 1%nat))])).
Proof.
  exists (train round_trip_world "samples.json" Example.fresh).2.
  split; [exact round_trip_train|].
  destruct (train_then_predict round_trip_world "samples.json" Example.fresh _ "{}"
              round_trip_train)
    as (complete & final_model & Hload & Hfit & _ & Hpredict).
  rewrite round_trip_load in Hload.
  assert (complete = Py.Dict <$> Example.records 50 0) as -> by congruence.
  rewrite round_trip_fit in Hfit.
  assert (final_model = 50%nat) as -> by congruence.
  assert (pickle_loads round_trip_world (pickle_dumps round_trip_world 50%nat)
          = Ok 50%nat) as Hpickle by (vm_compute; reflexivity).
  assert (predict_row round_trip_world "{}" = Ok default_vector) as Hrow
    by (vm_compute; reflexivity).
  assert (predict_proba round_trip_world 50%nat [default_vector] = Ok [[half; half]])
    as Hproba by (vm_compute; reflexivity).
  exact (Hpredict Hpickle default_vector [half; half] [] Hrow Hproba).
Defined.

(** ** Edge cases of the vectorizer *)

Lemma traverse_ext_in {A B} (f g : A → result B) l :
  (∀ x, x ∈ l → f x = g x) → traverse f l = traverse g l.
Proof.
  induction l as [|x l IH]; intros Hfg; [done|]. simpl.
  rewrite (Hfg x) by set_solver. rewrite IH; [done|]. intros y Hy. apply Hfg. set_solver.
Qed.

Lemma traverse_Err_elem {A B} (f : A → result B) l x e :
  x ∈ l → f x = Err e → ∃ e', traverse f l = Err e'.
Proof.
  intros Hx Hfx. destruct (traverse f l) as [ys|e'] eqn:Hl; [|by eauto].
  apply traverse_Forall2 in Hl.
  apply list_elem_of_lookup in Hx as [i Hi].
  destruct (Forall2_lookup_l _ _ _ _ _ Hl Hi) as (y & _ & Hy). congruence.
Qed.

(** X8. A sample without a [featuresJson] key vectorizes to the vector of
    defaults: 50, fourteen zeros, 50. *)
Theorem missing_features_give_defaults W smp :
  smp !! "featuresJson" = None →
  extract_features_from_sample W (Py.Dict smp) = Ok default_vector
  ∧ default_vector
    = float_of_Z 50 :: replicate 14 (float_of_Z 0) ++ [float_of_Z 50].
Proof.
  intros Hmissing. split; [|reflexivity].
  unfold extract_features_from_sample. cbn [Py.get]. rewrite Hmissing.
  cbn [from_option id mbind result_bind]. reflexivity.
Qed.

(** X9. A field of the table that is present with a value [float] rejects
    (such as [null]) is never replaced by its default: the vectorization
    fails, the sample is dropped by [train], and the row of [predict]
    fails. *)
Theorem non_numeric_field_fails W d key dflt v e :
  (key, dflt) ∈ FIELDS →
  d !! key = Some v →
  py_float W v = Err e →
  (∀ smp, smp !! "featuresJson" = Some (Py.Dict d) →
          is_ok (extract_features_from_sample W (Py.Dict smp)) = false
          ∧ vectorized W (Py.Dict smp) = None)
  ∧ (∀ s, json_loads W s = Ok (Py.Dict d) → is_ok (predict_row W s) = false).
Proof.
  intros Hin Hkey Hfloat.
  destruct (traverse_Err_elem (field_value W d) FIELDS (key, dflt) e Hin) as [e' Herr].
  { unfold field_value. simpl. by rewrite Hkey. }
  split.
  - intros smp Hsmp. unfold vectorized, vectorize.
    by rewrite (extract_features_native W smp d Hsmp), Herr.
  - intros s Hs. by rewrite (predict_row_fields W s d Hs), Herr.
Qed.

(** X10. The vector depends on the sixteen fields of the table only: two
    feature maps that agree on them, whatever else they or their samples
    hold, vectorize alike, at training and at scoring time. *)
Theorem unknown_fields_are_ignored W (d d' : gmap string Py.val) :
  (∀ key dflt, (key, dflt) ∈ FIELDS → d !! key = d' !! key) →
  (∀ smp smp', smp !! "featuresJson" = Some (Py.Dict d) →
               smp' !! "featuresJson" = Some (Py.Dict d') →
               extract_features_from_sample W (Py.Dict smp)
               = extract_features_from_sample W (Py.Dict smp'))
  ∧ (∀ s s', json_loads W s = Ok (Py.Dict d) → json_loads W s' = Ok (Py.Dict d') →
             predict_row W s = predict_row W s').
Proof.
  intros Hagree.
  assert (traverse (field_value W d) FIELDS = traverse (field_value W d') FIELDS) as Heq.
  { apply traverse_ext_in. intros [key dflt] Hin. unfold field_value. simpl.
    by rewrite (Hagree key dflt Hin). }
  split.
  - intros smp smp' H H'.
    by rewrite (extract_features_native W smp d H), (extract_features_native W smp' d' H').
  - intros s s' H H'.
    by rewrite (predict_row_fields W s d H), (predict_row_fields W s' d' H').
Qed.

(** X11. A [featuresJson] that is neither a mapping nor a text (a [null],
    a boolean, a number or a list) is not treated as missing: the
    vectorizer raises [AttributeError] at the first field. *)
Theorem features_of_wrong_type_raise W smp v :
  smp !! "featuresJson" = Some v →
  match v with Py.Dict _ | Py.Str _ => False | _ => True end →
  extract_features_from_sample W (Py.Dict smp)
  = Err (Exn AttributeError
           ("'" +:+ Py.type_name v +:+ "' object has no attribute 'get'")).
Proof.
  intros Hsmp Htype. unfold extract_features_from_sample. cbn [Py.get].
  rewrite Hsmp. cbn [from_option id mbind result_bind].
  by destruct v.
Qed.

(** ** The dataset builder, continued *)

Lemma build_dataset_omap W complete :
  build_dataset W complete
  = ((omap (vectorized W) complete).*1, (omap (vectorized W) complete).*2).
Proof.
  unfold build_dataset.
  enough (∀ acc : list (list pyfloat) * list Z,
    foldl (λ Xy sample,
             match vectorize W sample with
             | Ok (features, label) => (Xy.1 ++ [features], Xy.2 ++ [label])
             | Err _ => Xy
             end) acc complete
    = (acc.1 ++ (omap (vectorized W) complete).*1,
       acc.2 ++ (omap (vectorized W) complete).*2)) as Hgen by apply (Hgen ([], [])).
  induction complete as [|sample complete IH]; intros [X y]; simpl.
  - by rewrite !app_nil_r.
  - rewrite IH. unfold vectorized at 3 6.
    destruct (vectorize W sample) as [[features label]|e]; simpl; [|done].
    by rewrite <- !app_assoc.
Qed.

(** X12. The loop that builds [X] and [y] keeps them parallel: zipped
    together they are the (features, label) pairs of the samples that
    vectorize, in the order of the input; they have the same length, at
    most the number of input samples. *)
Theorem build_dataset_keeps_rows_and_labels_parallel W complete :
  zip (build_dataset W complete).1 (build_dataset W complete).2
  = omap (vectorized W) complete
  ∧ length (build_dataset W complete).1 = length (build_dataset W complete).2
  ∧ (length (build_dataset W complete).1 ≤ length complete)%nat.
Proof.
  split_and!; [| |apply build_dataset_le]; rewrite build_dataset_omap; cbn [fst snd].
  - apply zip_fst_snd.
  - by rewrite !length_fmap.
Qed.

(** X13. When every sample's [labelWin] is a boolean or the integer 0 or 1,
    every label of [y] is 0 or 1. *)
Theorem binary_labels_stay_binary W (samples : list (gmap string Py.val)) :
  (∀ smp, smp ∈ samples → ∃ v, smp !! "labelWin" = Some v ∧ binary_label v = true) →
  ∀ l, l ∈ (build_dataset W (Py.Dict <$> samples)).2 → l = 0 ∨ l = 1.
Proof.
  intros Hlabels l. rewrite build_dataset_omap. cbn [snd].
  rewrite list_elem_of_fmap. intros ([features l'] & -> & Hin). simpl.
  apply list_elem_of_omap in Hin as (sample & Hsample & Hvec).
  apply list_elem_of_fmap in Hsample as (smp & -> & Hsmp).
  destruct (Hlabels smp Hsmp) as (v & Hv & Hbin).
  unfold vectorized, vectorize in Hvec.
  destruct (extract_features_from_sample W (Py.Dict smp)) as [features'|]; [|done].
  cbn [mbind result_bind Py.getitem] in Hvec. rewrite Hv in Hvec.
  cbn [mbind result_bind] in Hvec.
  destruct v as [|[]|z| | | |]; try done; simpl in Hvec, Hbin.
  - injection Hvec as _ <-. by right.
  - injection Hvec as _ <-. by left.
  - injection Hvec as _ <-. lia.
Qed.

(** ** Malformed and small datasets *)

Lemma filter_r_non_record items bad :
  bad ∈ items →
  match bad with Py.Dict _ => False | _ => True end →
  ∃ e, filter_r is_complete_and_labelled items = Err e ∧ exn_cls e = AttributeError.
Proof.
  intros Hin Hbad. induction items as [|x items IH]; [by apply elem_of_nil in Hin|].
  cbn [filter_r].
  destruct (is_complete_and_labelled x) as [b|e] eqn:Hx.
  - assert (bad ∈ items) as Hin'.
    { apply elem_of_cons in Hin as [->|]; [|done]. by destruct x. }
    destruct (IH Hin') as (e & -> & He). by exists e.
  - exists e. split; [done|].
    destruct x; try (by injection Hx as <-).
    unfold is_complete_and_labelled in Hx. cbn [Py.get mbind result_bind] in Hx.
    by destruct (Py.truthy _).
Qed.

(** X14. When the samples file holds a list with an element that is not a
    record, [train] ends with an uncaught [AttributeError]: nothing is
    printed and no file is written. *)
Theorem train_raises_on_non_record_sample W path s text items bad :
  sklearn_installed W = true →
  open_read W path = Ok text →
  json_loads W text = Ok (Py.List items) →
  bad ∈ items →
  match bad with Py.Dict _ => False | _ => True end →
  ∃ e, exn_cls e = AttributeError
       ∧ train W path s
         = (Raised e, State true (model_file s) (status_file s) (stdout s)).
Proof.
  intros Hsk Hopen Hjson Hin Hbad.
  destruct (filter_r_non_record items bad Hin Hbad) as (e & Hfilter & He).
  exists e. split; [done|].
  rewrite train_spec, Hsk. unfold load_complete. rewrite Hopen.
  cbn [mbind result_bind]. rewrite Hjson. cbn [mbind result_bind Py.iter].
  by rewrite Hfilter.
Qed.

(** X15. With the imports available and fewer than 50 complete and labelled
    records, the error of the failure record is "Not enough samples: "
    followed by their number in decimal. *)
Theorem insufficient_data_message_reports_count W path s text ds :
  sklearn_installed W = true →
  open_read W path = Ok text →
  json_loads W text = Ok (Py.List (Py.Dict <$> ds)) →
  (length (List.filter trainable ds) < 50)%nat →
  train W path s
  = (SysExit 1,
     State true (model_file s) (status_file s)
       (stdout s ++ [Py.Dict {[ "success" := Py.Bool false;
                                "error" := Py.Str ("Not enough samples: "
                                  +:+ pretty (length (List.filter trainable ds))) ]}])).
Proof.
  intros Hsk Hopen Hjson Hfew.
  rewrite (train_run W path s text (Py.List (Py.Dict <$> ds))
             (Py.Dict <$> List.filter trainable ds))
    by (try done; simpl; apply filter_trainable).
  rewrite length_fmap.
  by destruct (Nat.ltb_spec (length (List.filter trainable ds)) 50); [|lia].
Qed.

(** X16. When the minimum of 50 has passed and fewer than 40 rows survive
    the vectorization, [train] ends with the uncaught [ValueError] of the
    splitter: nothing is printed and no file is written. *)
Theorem train_needs_forty_rows W path s complete :
  sklearn_installed W = true →
  load_complete W path = Ok complete →
  (50 ≤ length complete)%nat →
  (length (build_dataset W complete).1 < 40)%nat →
  ∃ e, exn_cls e = ValueError
       ∧ train W path s
         = (Raised e, State true (model_file s) (status_file s) (stdout s)).
Proof.
  intros Hsk Hload Hmin Hrows. rewrite train_spec, Hsk, Hload.
  destruct (Nat.ltb_spec (length complete) 50); [lia|].
  unfold fit_and_score. cbn zeta.
  set (n := Z.of_nat (length (build_dataset W complete).1)).
  assert (0 ≤ n < 40) as Hn by lia.
  unfold Sklearn.TimeSeriesSplit_init, fold_count.
  assert (n `div` 20 ≤ 1).
  { assert (n `div` 20 < 2) by (apply Z.div_lt_upper_bound; lia). lia. }
  destruct (Z.leb_spec (Z.min 5 (n `div` 20)) 1); [|lia].
  cbn [mbind result_bind]. eexists (Exn ValueError _). by split.
Qed.

(** ** The shape of the folds *)

Lemma slice_seqZ n a b :
  0 ≤ a ≤ b → b ≤ n → Py.slice (seqZ 0 n) a b = seqZ a (b - a).
Proof.
  intros Hab Hbn. unfold Py.slice, Py.clip. rewrite length_seqZ.
  destruct (Z.ltb_spec a 0); [lia|]. destruct (Z.ltb_spec b 0); [lia|].
  replace (Z.min b (Z.of_nat (Z.to_nat n))) with b by lia.
  replace (Z.min a (Z.of_nat (Z.to_nat n))) with a by lia.
  apply list_eq. intros i.
  destruct (decide (i < Z.to_nat (b - a))%nat) as [Hi|Hi].
  - rewrite lookup_take_lt, lookup_drop by done.
    rewrite !lookup_seqZ_lt by lia. f_equal. lia.
  - rewrite lookup_take_ge by lia. by rewrite lookup_seqZ_ge by lia.
Qed.

Lemma walk_forward_structure k n tscv folds i train_idx test_idx :
  Sklearn.TimeSeriesSplit_init k = Ok tscv →
  Sklearn.split tscv n = Ok folds →
  folds !! i = Some (train_idx, test_idx) →
  let test_size := n `div` (k + 1) in
  let test_start := n - (k - Z.of_nat i) * test_size in
  Z.of_nat i < k
  ∧ train_idx = seqZ 0 test_start
  ∧ test_idx = seqZ test_start test_size
  ∧ (Z.of_nat i = k - 1 → test_start + test_size = n).
Proof.
  intros Hinit Hsplit Hfold.
  destruct (split_inv k n tscv folds Hinit Hsplit) as (Hk & Hsize & Hfirst & ->).
  assert (0 ≤ n) by nia.
  assert ((k + 1) * (n `div` (k + 1)) ≤ n) by (apply Z.mul_div_le; lia).
  rewrite list_lookup_fmap in Hfold. unfold Py.range in Hfold.
  rewrite list_lookup_fmap in Hfold.
  destruct (seqZ 0 _ !! i) as [j|] eqn:Hj; [|done].
  apply lookup_seqZ in Hj as [-> Hi].
  replace (n - (n - k * n `div` (k + 1)) + n `div` (k + 1) - 1)
    with (k * (n `div` (k + 1)) + (n `div` (k + 1) - 1)) in Hi by lia.
  rewrite Z.div_add_l, Z.div_small in Hi by lia.
  simpl in Hfold. injection Hfold as <- <-.
  cbn zeta. split_and!; [lia| | |nia].
  - rewrite slice_seqZ by nia. f_equal; nia.
  - rewrite slice_seqZ by nia. f_equal; nia.
Qed.

(** X17. The folds form an expanding window: with [test_size = n // (k+1)],
    fold [i] (from 0) trains on the indices before
    [n - (k - i) * test_size] and tests on the [test_size] indices from
    there on; the last fold tests on the last [test_size] samples. *)
Theorem walk_forward_expanding_window k n tscv folds i train_idx test_idx :
  Sklearn.TimeSeriesSplit_init k = Ok tscv →
  Sklearn.split tscv n = Ok folds →
  folds !! i = Some (train_idx, test_idx) →
  let test_size := n `div` (k + 1) in
  let test_start := n - (k - Z.of_nat i) * test_size in
  Z.of_nat i < k
  ∧ train_idx = seqZ 0 test_start
  ∧ test_idx = seqZ test_start test_size
  ∧ (Z.of_nat i = k - 1 → test_start + test_size = n).
Proof.
  intros Hinit Hsplit Hfold.
  destruct (split_inv k n tscv folds Hinit Hsplit) as (Hk & Hsize & Hfirst & ->).
  assert (0 ≤ n) by nia.
  assert ((k + 1) * (n `div` (k + 1)) ≤ n) by (apply Z.mul_div_le; lia).
  rewrite list_lookup_fmap in Hfold. unfold Py.range in Hfold.
  rewrite list_lookup_fmap in Hfold.
  destruct (seqZ 0 _ !! i) as [j|] eqn:Hj; [|done].
  apply lookup_seqZ in Hj as [-> Hi].
  replace (n - (n - k * n `div` (k + 1)) + n `div` (k + 1) - 1)
    with (k * (n `div` (k + 1)) + (n `div` (k + 1) - 1)) in Hi by lia.
  rewrite Z.div_add_l, Z.div_small in Hi by lia.
  simpl in Hfold. injection Hfold as <- <-.
  cbn zeta. split_and!; [lia| | |nia].
  - rewrite slice_seqZ by nia. f_equal; nia.
  - rewrite slice_seqZ by nia. f_equal; nia.
Qed.

Lemma take_rows_in_bounds {A} (rows : list A) idx :
  (∀ i, i ∈ idx → 0 ≤ i < Z.of_nat (length rows)) →
  ∃ selected, Py.take_rows rows idx = Ok selected ∧ length selected = length idx.
Proof.
  intros Hbounds. unfold Py.take_rows.
  match goal with |- context [traverse ?f idx] => set (g := f) end.
  destruct (traverse_total g idx) as [selected Hsel].
  { apply Forall_forall. intros i Hi. destruct (Hbounds i Hi) as [Hlo Hhi].
    unfold g. destruct (Z.ltb_spec i (- Z.of_nat (length rows))); [lia|].
    destruct (Z.leb_spec (Z.of_nat (length rows)) i); [lia|]. simpl.
    destruct (Z.ltb_spec i 0); [lia|].
    destruct (rows !! Z.to_nat i) eqn:Hrow; [done|].
    apply lookup_ge_None in Hrow. lia. }
  exists selected. split; [done|].
  apply traverse_Forall2, Forall2_length in Hsel. done.
Qed.

(** X18. The index arrays of every fold are within the bounds of the
    dataset: selecting the training and the test rows never raises, yields
    as many rows as indices, and the test set is never empty. *)
Theorem fold_indices_select_rows {A} (rows : list A) k tscv folds train_idx test_idx :
  Sklearn.TimeSeriesSplit_init k = Ok tscv →
  Sklearn.split tscv (Z.of_nat (length rows)) = Ok folds →
  (train_idx, test_idx) ∈ folds →
  (∃ selected, Py.take_rows rows train_idx = Ok selected
               ∧ length selected = length train_idx)
  ∧ (∃ selected, Py.take_rows rows test_idx = Ok selected
                 ∧ length selected = length test_idx
                 ∧ (0 < length selected)%nat).
Proof.
  intros Hinit Hsplit Hfold.
  apply list_elem_of_lookup in Hfold as [i Hi].
  destruct (walk_forward_structure k _ tscv folds i train_idx test_idx Hinit Hsplit Hi)
    as (Hik & -> & -> & _).
  destruct (split_inv k _ tscv folds Hinit Hsplit) as (Hk & Hsize & Hfirst & _).
  set (n := Z.of_nat (length rows)) in *.
  assert ((k + 1) * (n `div` (k + 1)) ≤ n) by (apply Z.mul_div_le; lia).
  split.
  - apply take_rows_in_bounds. intros j Hj. apply elem_of_seqZ in Hj. nia.
  - destruct (take_rows_in_bounds rows
                (seqZ (n - (k - Z.of_nat i) * n `div` (k + 1)) (n `div` (k + 1))))
      as (selected & Hsel & Hlen).
    { intros j Hj. apply elem_of_seqZ in Hj. nia. }
    exists selected. split_and!; [done..|]. rewrite Hlen, length_seqZ. lia.
Qed.

(** ** The F1 score *)

(** X19. The F1 score of a fold without any positive, in the ground truth
    and in the predictions, is the float 0 and not an error. *)
Theorem f1_zero_division (y_true y_pred : list Z) :
  length y_true = length y_pred →
  (∀ l, l ∈ y_true ++ y_pred → l = 0) →
  Sklearn.f1_score y_true y_pred = Ok fzero.
Proof.
  intros Hlen Hzero. unfold Sklearn.f1_score.
  rewrite (check_binary_ok y_true y_pred Hlen) by (intros l Hl; left; by apply Hzero).
  cbn [mbind result_bind].
  f_equal. unfold Sklearn.prf_divide, Sklearn.true_sum, Sklearn.pred_sum.
  rewrite !count_none; [done|..].
  - intros t q Hin. apply elem_of_zip_r in Hin. unfold Sklearn.is_pos.
    assert (q = 0) by (apply Hzero; set_solver). lia.
  - intros t q Hin. apply elem_of_zip_l in Hin. unfold Sklearn.is_pos.
    assert (t = 0) by (apply Hzero; set_solver). lia.
Qed.

Lemma f1_zero_division_witness :
  length [0; 0] = length [0; 0]
  ∧ (∀ l : Z, l ∈ [0; 0] ++ [0; 0] → l = 0)
  ∧ Sklearn.f1_score [0; 0] [0; 0] = Ok fzero.
Proof.
  assert (∀ l : Z, l ∈ [0; 0] ++ [0; 0] → l = 0) as Hzero.
  { intros l Hl. simpl in Hl.
    repeat (apply elem_of_cons in Hl as [->|Hl]; [reflexivity|]).
    by apply elem_of_nil in Hl. }
  split_and!; [reflexivity|exact Hzero|].
  exact (f1_zero_division [0; 0] [0; 0] eq_refl Hzero).
Defined.

Lemma missing_features_give_defaults_witness :
  ({[ "isComplete" := Py.Bool true ]} : gmap string Py.val) !! "featuresJson" = None
  ∧ extract_features_from_sample (Example.world [] [])
      (Py.Dict {[ "isComplete" := Py.Bool true ]})
    = Ok default_vector.
Proof.
  split; [reflexivity|].
  apply (missing_features_give_defaults (Example.world [] [])
           {[ "isComplete" := Py.Bool true ]}).
  reflexivity.
Defined.

Lemma non_numeric_field_fails_witness :
  ("rsi14", 50) ∈ FIELDS
  ∧ ({[ "rsi14" := Py.None ]} : gmap string Py.val) !! "rsi14" = Some Py.None
  ∧ py_float (Example.world [] []) Py.None
    = Err (Exn TypeError "float() argument must be a string or a real number, not 'NoneType'")
  ∧ vectorized (Example.world [] []) (Py.Dict Example.bad_sample) = None.
Proof.
  assert (("rsi14", 50) ∈ FIELDS) as Hin by (apply list_elem_of_here).
  split_and!; [exact Hin|reflexivity|reflexivity|].
  apply (non_numeric_field_fails (Example.world [] []) {[ "rsi14" := Py.None ]}
           "rsi14" 50 Py.None
           (Exn TypeError "float() argument must be a string or a real number, not 'NoneType'"));
    [exact Hin|reflexivity|reflexivity|reflexivity].
Defined.

Lemma unknown_fields_are_ignored_witness :
  (∀ key dflt, (key, dflt) ∈ FIELDS →
     ({[ "rsi14" := Py.Int 60 ]} : gmap string Py.val) !! key
     = ({[ "rsi14" := Py.Int 60; "note" := Py.Str "x" ]} : gmap string Py.val) !! key)
  ∧ extract_features_from_sample (Example.world [] [])
      (Py.Dict {[ "featuresJson" := Py.Dict {[ "rsi14" := Py.Int 60 ]} ]})
    = extract_features_from_sample (Example.world [] [])
        (Py.Dict {[ "featuresJson" :=
                      Py.Dict {[ "rsi14" := Py.Int 60; "note" := Py.Str "x" ]} ]}).
Proof.
  assert (∀ key dflt, (key, dflt) ∈ FIELDS →
            ({[ "rsi14" := Py.Int 60 ]} : gmap string Py.val) !! key
            = ({[ "rsi14" := Py.Int 60; "note" := Py.Str "x" ]} : gmap string Py.val) !! key)
    as Hagree.
  { intros key dflt. unfold FIELDS. rewrite !elem_of_cons, elem_of_nil.
    intros H. repeat (destruct H as [[= -> ->]|H]; [vm_compute; reflexivity|]).
    destruct H. }
  split; [exact Hagree|].
  apply (proj1 (unknown_fields_are_ignored (Example.world [] [])
                  {[ "rsi14" := Py.Int 60 ]}
                  {[ "rsi14" := Py.Int 60; "note" := Py.Str "x" ]} Hagree));
    reflexivity.
Defined.

Lemma features_of_wrong_type_raise_witness :
  ({[ "featuresJson" := Py.None ]} : gmap string Py.val) !! "featuresJson" = Some Py.None
  ∧ extract_features_from_sample (Example.world [] [])
      (Py.Dict {[ "featuresJson" := Py.None ]})
    = Err (Exn AttributeError "'NoneType' object has no attribute 'get'").
Proof.
  split; [reflexivity|].
  by apply (features_of_wrong_type_raise (Example.world [] [])
              {[ "featuresJson" := Py.None ]} Py.None).
Defined.

Lemma binary_labels_stay_binary_witness :
  (∀ smp, smp ∈ [Example.good_sample] →
          ∃ v, smp !! "labelWin" = Some v ∧ binary_label v = true)
  ∧ (1 ∈ (build_dataset (Example.world [] []) (Py.Dict <$> [Example.good_sample])).2)
  ∧ (1 = 0 ∨ 1 = 1).
Proof.
  assert (∀ smp, smp ∈ [Example.good_sample] →
            ∃ v, smp !! "labelWin" = Some v ∧ binary_label v = true) as Hlabels.
  { intros smp Hsmp. apply list_elem_of_singleton in Hsmp as ->.
    exists (Py.Int 1). by split. }
  assert (1 ∈ (build_dataset (Example.world [] []) (Py.Dict <$> [Example.good_sample])).2)
    as Hin by (vm_compute; apply list_elem_of_here).
  split_and!; [exact Hlabels|exact Hin|].
  exact (binary_labels_stay_binary (Example.world [] []) [Example.good_sample]
           Hlabels 1 Hin).
Defined.

Lemma train_raises_on_non_record_sample_witness :
  json_loads (Example.world [("samples.json", "[3]")] [("[3]", Py.List [Py.Int 3])]) "[3]"
  = Ok (Py.List [Py.Int 3])
  ∧ ∃ e, exn_cls e = AttributeError
         ∧ train (Example.world [("samples.json", "[3]")] [("[3]", Py.List [Py.Int 3])])
             "samples.json" Example.fresh
           = (Raised e, State true None None []).
Proof.
  split; [reflexivity|].
  apply (train_raises_on_non_record_sample
           (Example.world [("samples.json", "[3]")] [("[3]", Py.List [Py.Int 3])])
           "samples.json" Example.fresh "[3]" [Py.Int 3] (Py.Int 3));
    [reflexivity|reflexivity|reflexivity|apply list_elem_of_here|exact I].
Defined.

Lemma insufficient_data_message_reports_count_witness :
  (length (List.filter trainable (Example.records 45 4)) < 50)%nat
  ∧ train (Example.samples_world 45 4) "samples.json" Example.fresh
    = (SysExit 1,
       State true None None
         [Py.Dict {[ "success" := Py.Bool false;
                     "error" := Py.Str ("Not enough samples: "
                       +:+ pretty (length (List.filter trainable (Example.records 45 4)))) ]}]).
Proof.
  assert (length (List.filter trainable (Example.records 45 4)) < 50)%nat as Hfew
    by (vm_compute; lia).
  split; [exact Hfew|].
  apply (insufficient_data_message_reports_count (Example.samples_world 45 4)
           "samples.json" Example.fresh "<samples>" (Example.records 45 4));
    [reflexivity|reflexivity|reflexivity|exact Hfew].
Defined.

Lemma samples_world_load good bad :
  load_complete (Example.samples_world good bad) "samples.json"
  = Ok (Py.Dict <$> Example.records good bad).
Proof.
  unfold load_complete.
  change (open_read (Example.samples_world good bad) "samples.json")
    with (Ok "<samples>" : result string).
  cbn [mbind result_bind].
  change (json_loads (Example.samples_world good bad) "<samples>")
    with (Ok (Example.samples good bad)).
  cbn [mbind result_bind]. apply records_complete.
Qed.

Lemma train_needs_forty_rows_witness :
  (50 ≤ length (Py.Dict <$> Example.records 30 20))%nat
  ∧ (length (build_dataset (Example.samples_world 30 20)
               (Py.Dict <$> Example.records 30 20)).1 < 40)%nat
  ∧ ∃ e, exn_cls e = ValueError
         ∧ train (Example.samples_world 30 20) "samples.json" Example.fresh
           = (Raised e, State true None None []).
Proof.
  assert (50 ≤ length (Py.Dict <$> Example.records 30 20))%nat as Hmin
    by (vm_compute; lia).
  assert (length (build_dataset (Example.samples_world 30 20)
                    (Py.Dict <$> Example.records 30 20)).1 < 40)%nat as Hrows
    by (vm_compute; lia).
  split_and!; [exact Hmin|exact Hrows|].
  exact (train_needs_forty_rows (Example.samples_world 30 20) "samples.json"
           Example.fresh _ eq_refl (samples_world_load 30 20) Hmin Hrows).
Defined.

Lemma walk_forward_expanding_window_witness :
  Sklearn.split {| Sklearn.n_splits := 2 |} 45
  = Ok [(seqZ 0 15, seqZ 15 15); (seqZ 0 30, seqZ 30 15)]
  ∧ seqZ 0 30 = seqZ 0 (45 - (2 - 1) * (45 `div` (2 + 1)))
  ∧ seqZ 30 15 = seqZ (45 - (2 - 1) * (45 `div` (2 + 1))) (45 `div` (2 + 1)).
Proof.
  split; [reflexivity|].
  destruct (walk_forward_expanding_window 2 45 {| Sklearn.n_splits := 2 |}
              [(seqZ 0 15, seqZ 15 15); (seqZ 0 30, seqZ 30 15)] 1
              (seqZ 0 30) (seqZ 30 15) eq_refl eq_refl eq_refl)
    as (_ & Htrain & Htest & _).
  split; [exact Htrain|exact Htest].
Defined.

Lemma fold_indices_select_rows_witness :
  Sklearn.split {| Sklearn.n_splits := 2 |} (Z.of_nat (length (replicate 45 tt)))
  = Ok [(seqZ 0 15, seqZ 15 15); (seqZ 0 30, seqZ 30 15)]
  ∧ ∃ selected, Py.take_rows (replicate 45 tt) (seqZ 30 15) = Ok selected
                ∧ length selected = length (seqZ 30 15)
                ∧ (0 < length selected)%nat.
Proof.
  split; [reflexivity|].
  apply (fold_indices_select_rows (replicate 45 tt) 2 {| Sklearn.n_splits := 2 |}
           [(seqZ 0 15, seqZ 15 15); (seqZ 0 30, seqZ 30 15)] (seqZ 0 30) (seqZ 30 15));
    [reflexivity|reflexivity|].
  apply list_elem_of_lookup. exists 1%nat. reflexivity.
Defined.

(** X2. A successful run of [train] had the imports available, at least 50
    complete and labelled samples, at least 40 vectorized rows, and
    evaluated between 2 and 5 walk-forward folds. *)
Theorem train_success_requirements W path s s' :
  train W path s = (Normal tt, s') →
  sklearn_installed W = true
  ∧ ∃ complete folds,
      load_complete W path = Ok complete
      ∧ (50 ≤ length complete)%nat
      ∧ (40 ≤ length (build_dataset W complete).1)%nat
      ∧ walk_forward_folds (Z.of_nat (length (build_dataset W complete).1)) = Ok folds
      ∧ (2 ≤ length folds ≤ 5)%nat.
Proof.
  rewrite train_spec.
  destruct (sklearn_installed W); [|done].
  destruct (load_complete W path) as [complete|e]; [|done].
  destruct (Nat.ltb_spec (length complete) 50) as [|Hmin]; [done|].
  rewrite fit_and_score_folds. cbn zeta.
  set (n := Z.of_nat (length (build_dataset W complete).1)).
  destruct (walk_forward_folds n) as [folds|e] eqn:Hfolds; [|done].
  intros _. split; [done|]. exists complete, folds.
  assert (Z.of_nat (length folds) = fold_count n ∧ 2 ≤ fold_count n) as [Hlen Hk].
  { unfold walk_forward_folds in Hfolds.
    destruct (Sklearn.TimeSeriesSplit_init (fold_count n)) as [tscv|] eqn:Hinit; [|done].
    cbn [mbind result_bind] in Hfolds.
    split; [by apply (split_length _ _ _ _ Hinit Hfolds)|].
    by destruct (split_inv _ _ _ _ Hinit Hfolds) as (Hk & _). }
  unfold fold_count in Hlen, Hk.
  assert (40 ≤ n).
  { destruct (Z.lt_ge_cases n 40) as [Hlt|]; [|done].
    assert (n `div` 20 < 2) by (apply Z.div_lt_upper_bound; lia). lia. }
  split_and!; [done|done|lia|done|lia|lia].
Qed.

Lemma train_success_requirements_witness :
  (train (Example.samples_world 45 5) "samples.json" Example.fresh).1 = Normal tt
  ∧ ∃ complete folds,
      load_complete (Example.samples_world 45 5) "samples.json" = Ok complete
      ∧ (50 ≤ length complete)%nat
      ∧ (40 ≤ length (build_dataset (Example.samples_world 45 5) complete).1)%nat
      ∧ walk_forward_folds
          (Z.of_nat (length (build_dataset (Example.samples_world 45 5) complete).1))
        = Ok folds
      ∧ (2 ≤ length folds ≤ 5)%nat.
Proof.
  assert (train (Example.samples_world 45 5) "samples.json" Example.fresh
          = (Normal tt, (train (Example.samples_world 45 5) "samples.json" Example.fresh).2))
    as Htrain by (vm_compute; reflexivity).
  split; [by rewrite Htrain|].
  exact (proj2 (train_success_requirements (Example.samples_world 45 5) "samples.json"
                  Example.fresh _ Htrain)).
Defined.
